(** * AptosAI: a shallow embedding of the framework core and its two agents

    Sources embedded here:
    - [src/core/AptosAI.ts]: the chain facade [AptosAI], the plugin registry
      and [LiquidityPoolPlugin];
    - the DeFi advisor agent ([DeFiAdvisorAgent]): [analyzePortfolio],
      [suggestOptimalSwap], [getRiskAssessment], [determineRiskLevel];
    - [examples/Agents/TradingBot.ts]: [monitorAndTrade] and its helpers.

    JavaScript values are modelled by the inductive [value]; strings are
    sequences of code units below 256 (Rocq's [ascii]); BigInt is [Z].
    An [async] function is a computation over the history of external
    calls: it reads the answers of the outside world from an [Env] and
    records every call it issues. *)

From Stdlib Require Import ZArith List String Ascii Bool Lia DecimalString.
From stdpp Require Import base gmap strings list.

Import ListNotations.
Local Set Warnings "-register-all".
Local Open Scope string_scope.
Local Open Scope Z_scope.

(** ** Strings *)

(** [s.startsWith(t)], the test [includes] repeats at every position. *)
Fixpoint startsWith (s t : string) {struct t} : bool :=
  match t with
  | EmptyString => true
  | String b t' =>
      match s with
      | EmptyString => false
      | String a s' => if Ascii.eqb a b then startsWith s' t' else false
      end
  end.

(** [s.includes(t)]: [t] occurs in [s] at some position. *)
Fixpoint includes (s t : string) : bool :=
  startsWith s t ||
  match s with
  | EmptyString => false
  | String _ s' => includes s' t
  end.

(** [terms.some(term => s.includes(term))]. *)
Definition some_included (terms : list string) (s : string) : bool :=
  existsb (fun term => includes s term) terms.

(** Lower-casing of one code unit below 256: the ASCII capitals and the
    Latin-1 capitals U+00C0..U+00DE (U+00D7, the multiplication sign, has no
    case) move up by 32. *)
Definition lower_unit (c : ascii) : ascii :=
  let n := N_of_ascii c in
  if ((65 <=? n) && (n <=? 90) ||
      (192 <=? n) && (n <=? 222) && negb (n =? 215))%N
  then ascii_of_N (n + 32) else c.

(** [s.toLowerCase()]. *)
Fixpoint toLowerCase (s : string) : string :=
  match s with
  | EmptyString => EmptyString
  | String c s' => String (lower_unit c) (toLowerCase s')
  end.

(** White space of the numeric string grammar, below 256: TAB, LF, VT, FF,
    CR, SP and NBSP. *)
Definition is_white_space (c : ascii) : bool :=
  let n := N_of_ascii c in
  ((9 <=? n) && (n <=? 13) || (n =? 32) || (n =? 160))%N.

Fixpoint trimStart (s : string) : string :=
  match s with
  | EmptyString => EmptyString
  | String c s' => if is_white_space c then trimStart s' else s
  end.

Fixpoint trimEnd (s : string) : string :=
  match s with
  | EmptyString => EmptyString
  | String c s' =>
      match trimEnd s' with
      | EmptyString => if is_white_space c then EmptyString else String c EmptyString
      | r => String c r
      end
  end.

Definition trim (s : string) : string := trimEnd (trimStart s).

(** The value of a digit in bases up to 16. *)
Definition digit_value (c : ascii) : option Z :=
  let n := Z.of_N (N_of_ascii c) in
  if (48 <=? n) && (n <=? 57) then Some (n - 48)
  else if (97 <=? n) && (n <=? 102) then Some (n - 87)
  else if (65 <=? n) && (n <=? 70) then Some (n - 55)
  else None.

Fixpoint digits_from (base acc : Z) (s : string) : option Z :=
  match s with
  | EmptyString => Some acc
  | String c s' =>
      match digit_value c with
      | Some d => if d <? base then digits_from base (base * acc + d) s' else None
      | None => None
      end
  end.

(** One digit or more, in the given base. *)
Definition digits (base : Z) (s : string) : option Z :=
  match s with
  | EmptyString => None
  | _ => digits_from base 0 s
  end.

(** StringToBigInt: white space is trimmed, the empty text is [0n]; then
    either a prefixed hexadecimal, octal or binary literal without sign, or
    decimal digits with an optional sign. *)
Definition StringToBigInt (s : string) : option Z :=
  match trim s with
  | EmptyString => Some 0
  | String "0" (String "x" r) | String "0" (String "X" r) => digits 16 r
  | String "0" (String "o" r) | String "0" (String "O" r) => digits 8 r
  | String "0" (String "b" r) | String "0" (String "B" r) => digits 2 r
  | String "-" r => Z.opp <$> digits 10 r
  | String "+" r => digits 10 r
  | r => digits 10 r
  end.

(** ** Values *)

(** The values the program handles: what [JSON.parse] produces, and
    [undefined]. [VNum n] is an integral Number below [10^21] in absolute
    value (its decimal text is then its [ToString]); [VFrac text] is a finite
    Number that is not an integer, carried by its [ToString] text. *)
Inductive value : Type :=
| VUndefined
| VNull
| VBool (b : bool)
| VNum (n : Z)
| VFrac (text : string)
| VStr (s : string)
| VArr (items : list value)
| VObj (fields : list (string * value)).

Definition Z_toString (n : Z) : string := NilZero.string_of_int (Z.to_int n).

(** [ToString]: an array joins its elements with commas, [undefined] and
    [null] elements giving the empty text. *)
Fixpoint ToString (v : value) : string :=
  match v with
  | VUndefined => "undefined"
  | VNull => "null"
  | VBool true => "true"
  | VBool false => "false"
  | VNum n => Z_toString n
  | VFrac text => text
  | VStr s => s
  | VArr items =>
      (fix join (l : list value) : string :=
         match l with
         | [] => ""
         | x :: l' =>
             let e := match x with
                      | VUndefined | VNull => ""
                      | _ => ToString x
                      end in
             match l' with
             | [] => e
             | _ => e +:+ "," +:+ join l'
             end
         end) items
  | VObj _ => "[object Object]"
  end.

(** Truthiness, as [||], [&&], [!] and [if] test it. *)
Definition truthy (v : value) : bool :=
  match v with
  | VUndefined | VNull => false
  | VBool b => b
  | VNum n => negb (n =? 0)
  | VFrac _ => true
  | VStr s => negb (String.eqb s "")
  | VArr _ | VObj _ => true
  end.

(** [a || b]. *)
Definition or_else (a b : value) : value := if truthy a then a else b.

(** First binding of a key in an object's fields. *)
Fixpoint assoc (k : string) (fields : list (string * value)) : option value :=
  match fields with
  | [] => None
  | (k', v) :: rest => if String.eqb k k' then Some v else assoc k rest
  end.

(** ['k' in obj], for an object. *)
Definition has_key (k : string) (fields : list (string * value)) : bool :=
  match assoc k fields with Some _ => true | None => false end.

(** [v.k] on a value that is neither [undefined] nor [null], for the keys
    the program reads (none of them is a property that strings, numbers,
    arrays or [Object.prototype] provide). *)
Definition prop (v : value) (k : string) : value :=
  match v with
  | VObj fields => match assoc k fields with Some x => x | None => VUndefined end
  | _ => VUndefined
  end.

(** [v?.k]. *)
Definition opt_prop (v : value) (k : string) : value :=
  match v with
  | VUndefined | VNull => VUndefined
  | _ => prop v k
  end.

(** ** Failures *)

(** A thrown [Error] is observed through its [message] only (every [catch]
    of the program reads [error.message] and nothing else). The messages
    of the errors the engine raises are V8's. *)
Definition error : Type := string.

Inductive result (A : Type) : Type :=
| Ok (a : A)
| Err (e : error).
Arguments Ok {A} a.
Arguments Err {A} e.

Definition is_ok {A} (r : result A) : bool :=
  match r with Ok _ => true | Err _ => false end.

Definition rbind {A B} (r : result A) (f : A -> result B) : result B :=
  match r with
  | Ok a => f a
  | Err e => Err e
  end.

(** [v.k], failing on [undefined] and [null]. *)
Definition get (v : value) (k : string) : result value :=
  match v with
  | VUndefined | VNull =>
      Err ("Cannot read properties of " +:+ ToString v +:+ " (reading '" +:+ k +:+ "')")
  | _ => Ok (prop v k)
  end.

(** [BigInt(v)]: [ToPrimitive] turns arrays and objects into their text; a
    Number must be integral; a string goes through [StringToBigInt]. *)
Definition BigInt (v : value) : result Z :=
  match v with
  | VUndefined | VNull => Err ("Cannot convert " +:+ ToString v +:+ " to a BigInt")
  | VBool b => Ok (if b then 1 else 0)
  | VNum n => Ok n
  | VFrac text =>
      Err ("The number " +:+ text +:+
           " cannot be converted to a BigInt because it is not an integer")
  | VStr _ | VArr _ | VObj _ =>
      match StringToBigInt (ToString v) with
      | Some n => Ok n
      | None => Err ("Cannot convert " +:+ ToString v +:+ " to a BigInt")
      end
  end.

(** ** Account resources *)

(** One on-chain resource, [{ type, data }]: [data] is a Move struct value,
    an object; [None] stands for a resource without a [data] property. A
    [data] that is not an object is outside this type (on it, the test
    ['value' in position.data] of [analyzePortfolio] would throw). *)
Record Resource : Type := {
  type : string;
  data : option (list (string * value))
}.

Definition Resource_value (r : Resource) : value :=
  VObj (("type", VStr (type r)) ::
        match data r with
        | Some fields => [("data", VObj fields)]
        | None => []
        end).

(** ** External calls *)

(** What the program asks of its collaborators: the node's RPC client, the
    completion service, the market-data sources of the trading bot and the
    listeners of its notifications. *)
Inductive Event : Type :=
| GetAccountResources (address : value)
| GetAccountTransactions (address : value)
| GenerateTransaction (sender payload : value)
| SignTransaction (txnRequest : value)
| SubmitTransaction (signedTxn : value)
| ChatCompletion (model : string) (messages : list (string * string))
| FetchPrices
| FetchVolumes
| FetchLiquidity
| Emit (event : string) (payload : value).

(** The calls issued so far, the latest first. *)
Definition trace : Type := list Event.

(** An [async] computation: from the calls issued so far to its outcome and
    the calls issued once it has settled. *)
Definition IO (A : Type) : Type := trace -> result A * trace.

Definition ret {A} (a : A) : IO A := fun t => (Ok a, t).

Definition throw {A} (e : error) : IO A := fun t => (Err e, t).

Definition bind {A B} (m : IO A) (k : A -> IO B) : IO B :=
  fun t =>
    match m t with
    | (Ok a, t') => k a t'
    | (Err e, t') => (Err e, t')
    end.

Definition liftR {A} (r : result A) : IO A := fun t => (r, t).

(** [try { m } catch (error) { throw new Error(prefix + error.message) }]. *)
Definition rethrow {A} (prefix : string) (m : IO A) : IO A :=
  fun t =>
    match m t with
    | (Ok a, t') => (Ok a, t')
    | (Err e, t') => (Err (prefix +:+ e), t')
    end.

(** One call on a collaborator: it is recorded, and the collaborator answers
    from what has been asked before. *)
Definition call {A} (ev : Event) (answer : trace -> result A) : IO A :=
  fun t => (answer t, ev :: t).

Notation "'let*' x ':=' m 'in' k" := (bind m (fun x => k))
  (at level 10, x name, m at level 100, k at level 200).
Notation "'let?' x ':=' r 'in' k" := (rbind r (fun x => k))
  (at level 10, x name, r at level 100, k at level 200).

(** The branches of a [Promise.all], started in array order before any
    outcome is looked at. *)
Fixpoint start_all {A} (ps : list (IO A)) (t : trace) : list (result A) * trace :=
  match ps with
  | [] => ([], t)
  | p :: ps' =>
      let '(r, t1) := p t in
      let '(rs, t2) := start_all ps' t1 in
      (r :: rs, t2)
  end.

(** An [async] call that is started and not awaited: its request is issued
    and its outcome is held by the promise. *)
Definition start {A} (m : IO A) : IO (result A) :=
  fun t => let '(r, t') := m t in (Ok r, t').

(** The call of a method that the receiver does not have: a TypeError,
    thrown where the call is evaluated. *)
Definition not_a_function (callee : string) : error := callee +:+ " is not a function".

Definition call_undeclared {A} (callee : string) : IO A :=
  throw (not_a_function callee).

(** ** The facade state *)

(** The RPC client of a node, named by the URL it sends its requests to. *)
Definition AptosClient : Type := string.

(** A signing account of the SDK. *)
Record AptosAccount : Type := {
  signingKey : string;
  address : value
}.

(** [interface DeFiPlugin { execute(action, params): Promise<any> }]. *)
Record DeFiPlugin : Type := {
  execute : string -> value -> IO value
}.

(** [class AptosAI]: fields [client], [account], [openai] and [plugins];
    an absent [account] or [openai] is the field left [undefined]. *)
Record AptosAI : Type := {
  client : AptosClient;
  account : option AptosAccount;
  openai : option string;
  plugins : gmap string DeFiPlugin
}.

Record TradeIntent : Type := {
  protocol : string;
  fromToken : string;
  toToken : string;
  amount : value;
  minOutput : value
}.

Record TradingDecision : Type := {
  shouldTrade : bool;
  trade : option TradeIntent;
  reasoning : string
}.

(** The outside world, and the helpers of the trading bot that lie past the
    end of its source file. An answer may depend on everything asked
    before. *)
Record Env : Type := {
  (** [Date.now()] and [date.toISOString()] *)
  Date_now : trace -> Z;
  Date_toISOString : Z -> string;
  (** [new AptosClient(nodeUrl)] and
      [new AptosAccount(new Uint8Array(Buffer.from(privateKey, 'hex')))] *)
  new_AptosClient : string -> result AptosClient;
  new_AptosAccount : string -> result AptosAccount;
  (** the answers of the node to the RPC client *)
  node_getAccountResources : trace -> AptosClient -> value -> result (list Resource);
  node_getAccountTransactions : trace -> AptosClient -> value -> result value;
  node_generateTransaction : trace -> AptosClient -> value -> value -> result value;
  node_signTransaction : trace -> AptosClient -> AptosAccount -> value -> result value;
  node_submitTransaction : trace -> AptosClient -> value -> result value;
  (** [openai.chat.completions.create(...)] followed by
      [.choices[0].message.content] *)
  chat_completion : trace -> string -> list (string * string) -> result string;
  (** [JSON.stringify(v)] and [JSON.stringify(v, null, 2)] *)
  JSON_stringify : value -> string;
  JSON_stringify_indent : value -> string;
  (** [parseFloat(v) > 1.0], a comparison of floating-point numbers *)
  parseFloat_exceeds_one : value -> bool;
  (** which rejection reaches the join of a [Promise.all] first in time,
      as an index among the rejections, taken modulo their number *)
  first_rejection : trace -> nat;
  (** [utils.formatAmount] *)
  utils_formatAmount : Z -> result string;
  (** helpers of the trading bot past the end of its source file *)
  fetchPrices : trace -> result value;
  fetchVolumes : trace -> result value;
  fetchLiquidity : trace -> result value;
  parseTradeDecision : string -> result TradingDecision;
  (** the listeners registered on the bot, run by [emit] *)
  listeners : trace -> string -> value -> result unit
}.

(** ** [Promise.all] *)

Section Joins.

Variable env : Env.

(** The rejection that reaches the join first, among [e] and [others]. *)
Definition first_rejected (t : trace) (e : error) (others : list error) : error :=
  nth (first_rejection env t mod S (length others)) (e :: others) e.

Definition rejections {A} (rs : list (result A)) : list error :=
  omap (fun r => match r with Ok _ => None | Err e => Some e end) rs.

Definition fulfilments {A} (rs : list (result A)) : list A :=
  omap (fun r => match r with Ok a => Some a | Err _ => None end) rs.

(** The join of branches that have settled as [rs]: all the values when no
    branch has rejected, otherwise the rejection that came first. *)
Definition settle_all {A} (rs : list (result A)) (t : trace) : result (list A) :=
  match rejections rs with
  | [] => Ok (fulfilments rs)
  | e :: others => Err (first_rejected t e others)
  end.

(** [Promise.all(ps)] on an array of calls. *)
Definition Promise_all {A} (ps : list (IO A)) : IO (list A) :=
  fun t => let '(rs, t') := start_all ps t in (settle_all rs t', t').

(** [Promise.all] on two promises of different types. *)
Definition Promise_all2 {A B} (ra : result A) (rb : result B) : IO (A * B) :=
  fun t =>
    (match ra, rb with
     | Ok a, Ok b => Ok (a, b)
     | Err e, Ok _ | Ok _, Err e => Err e
     | Err e1, Err e2 => Err (first_rejected t e1 [e2])
     end, t).

(** [Promise.all] on three calls of different types. *)
Definition Promise_all3 {A B C} (pa : IO A) (pb : IO B) (pc : IO C)
  : IO (A * B * C) :=
  fun t =>
    let '(ra, t1) := pa t in
    let '(rb, t2) := pb t1 in
    let '(rc, t3) := pc t2 in
    (match ra, rb, rc with
     | Ok a, Ok b, Ok c => Ok (a, b, c)
     | Err e, Ok _, Ok _ | Ok _, Err e, Ok _ | Ok _, Ok _, Err e => Err e
     | Err e1, Err e2, Ok _ | Err e1, Ok _, Err e2 | Ok _, Err e1, Err e2 =>
         Err (first_rejected t3 e1 [e2])
     | Err e1, Err e2, Err e3 => Err (first_rejected t3 e1 [e2; e3])
     end, t3).

End Joins.

(** ** [src/core/AptosAI.ts] *)

Section Core.

Variable env : Env.

(** The constructor: the client is built first; the account and the
    completion client are built only from a key that is given and not empty
    ([if (privateKey)]). *)
Definition new_AptosAI (nodeUrl : string) (privateKey openaiKey : option string)
  : result AptosAI :=
  let? client := new_AptosClient env nodeUrl in
  let? acct :=
    match privateKey with
    | Some key =>
        if truthy (VStr key)
        then let? a := new_AptosAccount env key in Ok (Some a)
        else Ok None
    | None => Ok None
    end in
  Ok {| client := client;
        account := acct;
        openai := match openaiKey with
                  | Some key => if truthy (VStr key) then Some key else None
                  | None => None
                  end;
        plugins := ∅ |}.

Definition getAccountResources (this : AptosAI) (address : string)
  : IO (list Resource) :=
  call (GetAccountResources (VStr address))
       (fun t => node_getAccountResources env t (client this) (VStr address)).

Definition default_coinType : string := "0x1::aptos_coin::AptosCoin".

(** [coinResource?.data?.coin?.value]. *)
Definition coin_value (coinResource : option Resource) : value :=
  match coinResource with
  | None => VUndefined
  | Some r =>
      match data r with
      | None => VUndefined
      | Some fields => opt_prop (prop (VObj fields) "coin") "value"
      end
  end.

(** [coinType] is [None] when the caller leaves the argument out. *)
Definition getAccountBalance (this : AptosAI) (address : string)
    (coinType : option string) : IO value :=
  let coin := match coinType with Some c => c | None => default_coinType end in
  let* resources := getAccountResources this address in
  let coinResource := List.find (fun r => String.eqb (type r) coin) resources in
  ret (or_else (coin_value coinResource) (VStr "0")).

Definition not_initialized : error :=
  "Account not initialized. Please provide private key.".

Definition submitTransaction (this : AptosAI) (payload : value) : IO value :=
  match account this with
  | None => throw not_initialized
  | Some acct =>
      let* txnRequest :=
        call (GenerateTransaction (address acct) payload)
             (fun t => node_generateTransaction env t (client this) (address acct) payload) in
      let* signedTxn :=
        call (SignTransaction txnRequest)
             (fun t => node_signTransaction env t (client this) acct txnRequest) in
      call (SubmitTransaction signedTxn)
           (fun t => node_submitTransaction env t (client this) signedTxn)
  end.

Definition nl : string := String (ascii_of_nat 10) EmptyString.

Fixpoint spaces (n : nat) : string :=
  match n with
  | O => EmptyString
  | S n' => String " " (spaces n')
  end.

(** One chat request to the model ["gpt-4"]. *)
Definition chat (messages : list (string * string)) : IO string :=
  call (ChatCompletion "gpt-4" messages)
       (fun t => chat_completion env t "gpt-4" messages).

Definition analyzeTransactionHistory (this : AptosAI) (address : string)
  : IO string :=
  match openai this with
  | None => throw "OpenAI not initialized. Please provide API key."
  | Some _ =>
      let* transactions :=
        call (GetAccountTransactions (VStr address))
             (fun t => node_getAccountTransactions env t (client this) (VStr address)) in
      let prompt :=
        "Analyze these Aptos blockchain transactions and provide insights:" +:+
        nl +:+ spaces 12 +:+ JSON_stringify_indent env transactions in
      chat [("user", prompt)]
  end.

(** [this.plugins.set(name, plugin)]. *)
Definition registerPlugin (name : string) (plugin : DeFiPlugin) (this : AptosAI)
  : AptosAI :=
  {| client := client this;
     account := account this;
     openai := openai this;
     plugins := <[name := plugin]> (plugins this) |}.

Definition plugin_not_found (pluginName : string) : error :=
  "Plugin " +:+ pluginName +:+ " not found".

Definition executePluginAction (this : AptosAI) (pluginName action : string)
    (params : value) : IO value :=
  match plugins this !! pluginName with
  | None => throw (plugin_not_found pluginName)
  | Some plugin => execute plugin action params
  end.

(** *** [LiquidityPoolPlugin] *)

Definition getPoolInfo (this : AptosClient) (poolAddress : value) : IO value :=
  let* resources :=
    call (GetAccountResources poolAddress)
         (fun t => node_getAccountResources env t this poolAddress) in
  ret (VArr (map Resource_value
               (List.filter (fun r => includes (type r) "LiquidityPool") resources))).

Definition calculateSwap (poolAddress amount : value) : IO value :=
  ret (VObj [("estimatedOutput", amount); ("priceImpact", VStr "0.1%")]).

Definition unknown_action (action : string) : error := "Unknown action: " +:+ action.

Definition LiquidityPoolPlugin_execute (this : AptosClient) (action : string)
    (params : value) : IO value :=
  if String.eqb action "getPoolInfo" then
    let* poolAddress := liftR (get params "poolAddress") in
    getPoolInfo this poolAddress
  else if String.eqb action "calculateSwap" then
    let* poolAddress := liftR (get params "poolAddress") in
    let* amount := liftR (get params "amount") in
    calculateSwap poolAddress amount
  else throw (unknown_action action).

(** The plugin whose [client] field is [this]. *)
Definition LiquidityPoolPlugin (this : AptosClient) : DeFiPlugin :=
  {| execute := LiquidityPoolPlugin_execute this |}.

(** [new LiquidityPoolPlugin(nodeUrl)]. *)
Definition new_LiquidityPoolPlugin (nodeUrl : string) : result DeFiPlugin :=
  let? client := new_AptosClient env nodeUrl in
  Ok (LiquidityPoolPlugin client).

End Core.

(** ** The DeFi advisor agent *)

Inductive RiskLevel : Type := LOW | MEDIUM | HIGH.

Module DeFiAdvisorAgent.

Record t : Type := {
  aptosAI : AptosAI;
  openai : string
}.

Record PortfolioAnalysis : Type := {
  positions : list Resource;
  history : string;
  advice : string
}.

Record SwapSuggestion : Type := {
  recommendation : string;
  quotes : list value
}.

Record RiskAssessment : Type := {
  riskLevel : RiskLevel;
  details : string
}.

(** *** The parts of the agent that call nobody *)

Definition markers : list string := ["LiquidityPool"; "Stake"; "Farm"].

(** The filter of [analyzePortfolio]. *)
Definition defiPositions (resources : list Resource) : list Resource :=
  List.filter
    (fun r => includes (type r) "LiquidityPool" ||
              includes (type r) "Stake" ||
              includes (type r) "Farm")
    resources.

(** The loop of [analyzePortfolio] over the positions, from the running
    [totalValue]. *)
Fixpoint addValues (totalValue : Z) (defiPositions : list Resource) : result Z :=
  match defiPositions with
  | [] => Ok totalValue
  | position :: rest =>
      match data position with
      | Some fields =>
          match assoc "value" fields with
          | Some v =>
              let? n := BigInt v in
              addValues (totalValue + n) rest
          | None => addValues totalValue rest
          end
      | None => addValues totalValue rest
      end
  end.

Definition totalValue (defiPositions : list Resource) : result Z :=
  addValues 0 defiPositions.

(** [BigInt(quote.outputAmount)]. *)
Definition outputAmount (quote : value) : result Z :=
  let? v := get quote "outputAmount" in BigInt v.

(** The callback of the reduction in [suggestOptimalSwap]. *)
Definition better (best current : value) : result value :=
  let? c := outputAmount current in
  let? b := outputAmount best in
  Ok (if c >? b then current else best).

(** [array.reduce(f)] without initial value. *)
Fixpoint reduce_from {A} (f : A -> A -> result A) (acc : A) (l : list A) : result A :=
  match l with
  | [] => Ok acc
  | x :: l' => let? acc' := f acc x in reduce_from f acc' l'
  end.

Definition reduce {A} (f : A -> A -> result A) (l : list A) : result A :=
  match l with
  | [] => Err "Reduce of empty array with no initial value"
  | x :: l' => reduce_from f x l'
  end.

Definition bestQuote (quotes : list value) : result value := reduce better quotes.

Definition lowRiskTerms : list string := ["safe"; "secure"; "reliable"; "established"].
Definition highRiskTerms : list string := ["dangerous"; "risky"; "unstable"; "vulnerable"].

Definition determineRiskLevel (analysis : string) : RiskLevel :=
  let analysisLower := toLowerCase analysis in
  if some_included highRiskTerms analysisLower then HIGH
  else if some_included lowRiskTerms analysisLower then LOW
  else MEDIUM.

(** *** The operations of the agent *)

Section Agent.

Variable env : Env.

(** [initializePlugins]: the argument of the plugin's constructor is
    [this.aptosAI.getClient()], and [class AptosAI] declares no [getClient]. *)
Definition initializePlugins (ai : AptosAI) : result AptosAI :=
  let? nodeUrl := Err (not_a_function "this.aptosAI.getClient") in
  let? liquidityPlugin := new_LiquidityPoolPlugin env nodeUrl in
  Ok (registerPlugin "liquidityPool" liquidityPlugin ai).

(** [new DeFiAdvisorAgent(nodeUrl, openaiKey)]. *)
Definition new (nodeUrl openaiKey : string) : result t :=
  let? ai := new_AptosAI env nodeUrl None None in
  let? ai' := initializePlugins ai in
  Ok {| aptosAI := ai'; openai := openaiKey |}.

Definition analyzeTxPatterns (transactions : value) : IO string :=
  chat env
    [("system", "Analyze these blockchain transactions for patterns and insights.");
     ("user", "Transaction history: " +:+ JSON_stringify env transactions)].

Definition generateAdvice (positions : list Resource) (patterns : string)
    (totalValue : Z) : IO string :=
  let* formatted := liftR (utils_formatAmount env totalValue) in
  chat env
    [("system", "Generate DeFi investment advice based on portfolio analysis.");
     ("user",
      nl +:+ spaces 24 +:+ "Positions: " +:+
        JSON_stringify env (VArr (map Resource_value positions)) +:+
      nl +:+ spaces 24 +:+ "Patterns: " +:+ patterns +:+
      nl +:+ spaces 24 +:+ "Total Value: " +:+ formatted +:+
      nl +:+ spaces 20)].

(** The array given to [Promise.all] is built first: the request for the
    resources is started, and then the call of
    [this.aptosAI.getAccountTransactions], which [class AptosAI] does not
    declare, throws. *)
Definition analyzePortfolio (this : t) (address : string) : IO PortfolioAnalysis :=
  rethrow "Portfolio analysis failed: "
    (let* resourcesPromise := start (getAccountResources env (aptosAI this) address) in
     let* transactionsPromise :=
       call_undeclared "this.aptosAI.getAccountTransactions" in
     let* fetched := Promise_all2 env resourcesPromise transactionsPromise in
     let resources := fst fetched in
     let transactions := snd fetched in
     let defi := defiPositions resources in
     let* total := liftR (totalValue defi) in
     let* txPatterns := analyzeTxPatterns transactions in
     let* adv := generateAdvice defi txPatterns total in
     ret {| positions := defi; history := txPatterns; advice := adv |}).

Definition dexes : list string := ["pancake"; "liquidswap"].

(** The [params] of the dispatch for one entry of [dexes]. *)
Definition swapParams (dex fromToken toToken amount : string) : value :=
  VObj [("dex", VStr dex); ("fromToken", VStr fromToken);
        ("toToken", VStr toToken); ("amount", VStr amount)].

Definition swapAdviceMessages (quotes : list value) (bestQuote : value)
    (fromToken toToken amount : string) : list (string * string) :=
  [("system", "Analyze swap quotes and provide trading recommendations.");
   ("user",
    nl +:+ spaces 24 +:+ "Quotes: " +:+ JSON_stringify env (VArr quotes) +:+
    nl +:+ spaces 24 +:+ "Best Quote: " +:+ JSON_stringify env bestQuote +:+
    nl +:+ spaces 24 +:+ "From Token: " +:+ fromToken +:+
    nl +:+ spaces 24 +:+ "To Token: " +:+ toToken +:+
    nl +:+ spaces 24 +:+ "Amount: " +:+ amount +:+
    nl +:+ spaces 20)].

Definition generateSwapAdvice (quotes : list value) (bestQuote : value)
    (fromToken toToken amount : string) : IO string :=
  chat env (swapAdviceMessages quotes bestQuote fromToken toToken amount).

Definition suggestOptimalSwap (this : t) (fromToken toToken amount : string)
  : IO SwapSuggestion :=
  rethrow "Swap analysis failed: "
    (let* quotes :=
       Promise_all env
         (map (fun dex =>
                 executePluginAction (aptosAI this) "liquidityPool" "calculateSwap"
                   (swapParams dex fromToken toToken amount))
              dexes) in
     let* best := liftR (bestQuote quotes) in
     let* recommendation :=
       generateSwapAdvice quotes best fromToken toToken amount in
     ret {| recommendation := recommendation; quotes := quotes |}).

Definition getProtocolData (protocol : string) : IO value :=
  ret (VObj [("tvl", VStr "1000000"); ("age", VStr "6 months");
             ("audited", VBool true); ("incidents", VArr [])]).

Definition getRiskAssessment (this : t) (protocol : string) : IO RiskAssessment :=
  rethrow "Risk assessment failed: "
    (let* protocolData := getProtocolData protocol in
     let* riskAnalysis :=
       chat env
         [("system", "You are a DeFi risk analyst specializing in Aptos protocols.");
          ("user",
           "Analyze the risk level of this protocol:" +:+
           nl +:+ spaces 28 +:+ "TVL: " +:+ ToString (prop protocolData "tvl") +:+
           nl +:+ spaces 28 +:+ "Age: " +:+ ToString (prop protocolData "age") +:+
           nl +:+ spaces 28 +:+ "Audit Status: " +:+
             ToString (prop protocolData "audited") +:+
           nl +:+ spaces 28 +:+ "Past Incidents: " +:+
             ToString (prop protocolData "incidents") +:+
           nl +:+ spaces 28)] in
     ret {| riskLevel := determineRiskLevel riskAnalysis; details := riskAnalysis |}).

End Agent.

End DeFiAdvisorAgent.

(** ** The trading bot *)

Module TradingBot.

Record TradingStrategy : Type := {
  name : string;
  description : string;
  parameters : value
}.

(** [class TradingBot]; [lastTrade] holds the time of the [Date] in
    milliseconds, [None] for [null]; the interval is in milliseconds. *)
Record t : Type := {
  aptosAI : AptosAI;
  openai : string;
  strategy : TradingStrategy;
  isRunning : bool;
  lastTrade : option Z;
  minTradeInterval : Z
}.

Definition loadStrategy (strategyName : string) : TradingStrategy :=
  {| name := strategyName;
     description := "Simple momentum trading strategy";
     parameters := VObj [("lookbackPeriod", VStr "24h");
                         ("momentumThreshold", VFrac "0.05");
                         ("maxTradeSize", VStr "1000000000")] |}.

Definition TradeIntent_value (tr : TradeIntent) : value :=
  VObj [("protocol", VStr (protocol tr)); ("fromToken", VStr (fromToken tr));
        ("toToken", VStr (toToken tr)); ("amount", amount tr);
        ("minOutput", minOutput tr)].

(** Reading the property [k] of [decision.trade], which may be [undefined]. *)
Definition the_trade (trade : option TradeIntent) (k : string) : result TradeIntent :=
  match trade with
  | Some tr => Ok tr
  | None => Err ("Cannot read properties of undefined (reading '" +:+ k +:+ "')")
  end.

Definition set_lastTrade (this : t) (time : Z) : t :=
  {| aptosAI := aptosAI this;
     openai := openai this;
     strategy := strategy this;
     isRunning := isRunning this;
     lastTrade := Some time;
     minTradeInterval := minTradeInterval this |}.

Section Bot.

Variable env : Env.

(** [new TradingBot(nodeUrl, privateKey, openaiKey, strategy, config)]; the
    interval of [config] is [None] when it is left out. The fields are
    assigned in the order of the source, [initializePlugins] coming last;
    it is written first here because the record is built at once. *)
Definition initializePlugins (ai : AptosAI) : result AptosAI :=
  let? nodeUrl := Err (not_a_function "this.aptosAI.getClient") in
  let? liquidityPlugin := new_LiquidityPoolPlugin env nodeUrl in
  Ok (registerPlugin "liquidityPool" liquidityPlugin ai).

Definition new (nodeUrl privateKey openaiKey strategyName : string)
    (config_minTradeInterval : option Z) : result t :=
  let? ai := new_AptosAI env nodeUrl (Some privateKey) None in
  let? ai' := initializePlugins ai in
  Ok {| aptosAI := ai';
        openai := openaiKey;
        strategy := loadStrategy strategyName;
        isRunning := false;
        lastTrade := None;
        minTradeInterval :=
          match config_minTradeInterval with
          | Some n => if n =? 0 then 5 * 60 * 1000 else n
          | None => 5 * 60 * 1000
          end |}.

(** The test that opens [monitorAndTrade]:
    [this.lastTrade && Date.now() - this.lastTrade.getTime() < this.minTradeInterval]. *)
Definition too_soon (this : t) (tr : trace) : bool :=
  match lastTrade this with
  | Some last => Date_now env tr - last <? minTradeInterval this
  | None => false
  end.

Definition getMarketData : IO value :=
  rethrow "Failed to fetch market data: "
    (let* fetched :=
       Promise_all3 env (call FetchPrices (fetchPrices env))
                    (call FetchVolumes (fetchVolumes env))
                    (call FetchLiquidity (fetchLiquidity env)) in
     fun tr =>
       (Ok (VObj [("prices", fst (fst fetched));
                  ("volumes", snd (fst fetched));
                  ("liquidityDepth", snd fetched);
                  ("timestamp", VStr (Date_toISOString env (Date_now env tr)))]),
        tr)).

(** The first argument of [getAccountBalance] is
    [this.aptosAI.getAddress()], and [class AptosAI] declares no
    [getAddress]: the call throws before [trade] is read. *)
Definition validateTrade (this : t) (trade : option TradeIntent) : IO unit :=
  let* addr := call_undeclared "this.aptosAI.getAddress" in
  let* tr := liftR (the_trade trade "fromToken") in
  let* balance := getAccountBalance env (aptosAI this) addr (Some (fromToken tr)) in
  let* b := liftR (BigInt balance) in
  let* a := liftR (BigInt (amount tr)) in
  if b <? a then throw "Insufficient balance for trade"
  else
    let* quote :=
      executePluginAction (aptosAI this) "liquidityPool" "calculateSwap"
        (VObj [("fromToken", VStr (fromToken tr)); ("toToken", VStr (toToken tr));
               ("amount", amount tr)]) in
    let* impact := liftR (get quote "priceImpact") in
    if parseFloat_exceeds_one env impact then throw "Price impact too high"
    else ret tt.

(** The messages of the request of [analyzeMarket]. *)
Definition analysisMessages (this : t) (marketData : value) : list (string * string) :=
  [("system",
    "You are a trading bot using the " +:+ name (strategy this) +:+ " strategy." +:+
    nl +:+ spaces 28 +:+ "Strategy parameters: " +:+
    JSON_stringify env (parameters (strategy this)));
   ("user",
    "Analyze market data and suggest trades:" +:+
    nl +:+ spaces 28 +:+ JSON_stringify_indent env marketData)].

Definition analyzeMarket (this : t) (marketData : value) : IO TradingDecision :=
  rethrow "Market analysis failed: "
    (let* content := chat env (analysisMessages this marketData) in
     let* decision := liftR (parseTradeDecision env content) in
     let* _ := (if shouldTrade decision then validateTrade this (trade decision)
                else ret tt) in
     ret decision).

Definition executeTrade (this : t) (trade : option TradeIntent) : IO value :=
  rethrow "Trade execution failed: "
    (let* tr := liftR (the_trade trade "protocol") in
     let payload :=
       VObj [("function", VStr (protocol tr +:+ "::router::swap"));
             ("type_arguments", VArr [VStr (fromToken tr); VStr (toToken tr)]);
             ("arguments", VArr [amount tr; minOutput tr])] in
     submitTransaction env (aptosAI this) payload).

(** [this.emit(event, payload)]: the listeners run, and may throw. *)
Definition emit (event : string) (payload : value) : IO unit :=
  call (Emit event payload) (fun tr => listeners env tr event payload).

(** The cycle up to the submission: what is awaited before [lastTrade] is
    written. The outcome is the transaction and the decision when a trade
    was made. *)
Definition decide_and_trade (this : t) : IO (option (value * TradingDecision)) :=
  let* marketData := getMarketData in
  let* decision := analyzeMarket this marketData in
  if shouldTrade decision then
    let* txHash := executeTrade this (trade decision) in
    ret (Some (txHash, decision))
  else ret None.

(** One cycle. The bot is returned with its outcome: [lastTrade] is written
    before the notification, so it stays written when a listener throws. *)
Definition monitorAndTrade (this : t) (tr : trace) : result unit * t * trace :=
  if too_soon this tr then (Ok tt, this, tr)
  else
    match decide_and_trade this tr with
    | (Err e, tr1) => (Err ("Trading cycle failed: " +:+ e), this, tr1)
    | (Ok None, tr1) => (Ok tt, this, tr1)
    | (Ok (Some (txHash, decision)), tr1) =>
        let this' := set_lastTrade this (Date_now env tr1) in
        let payload :=
          VObj [("txHash", txHash);
                ("trade", match trade decision with
                          | Some x => TradeIntent_value x
                          | None => VUndefined
                          end);
                ("reasoning", VStr (reasoning decision))] in
        match emit "trade" payload tr1 with
        | (Ok _, tr2) => (Ok tt, this', tr2)
        | (Err e, tr2) => (Err ("Trading cycle failed: " +:+ e), this', tr2)
        end
    end.

End Bot.

End TradingBot.

(** ** Vocabulary of the statements *)

(** [t] occurs in [s]: some text before, [t], some text after. *)
Definition occurs_in (t s : string) : Prop :=
  exists pre post, s = pre +:+ t +:+ post.

(** [term] occurs in [s] up to the case of the letters: some stretch of [s]
    lower-cases to the same text as [term]. *)
Definition mentions (s term : string) : Prop :=
  exists pre mid post,
    s = pre +:+ mid +:+ post /\ toLowerCase mid = toLowerCase term.

(** [kept] is [l] without the elements that fail [P], in the order of [l]. *)
Inductive Selected {A} (P : A -> Prop) : list A -> list A -> Prop :=
| Selected_nil : Selected P [] []
| Selected_keep x l kept : P x -> Selected P l kept -> Selected P (x :: l) (x :: kept)
| Selected_drop x l kept : ~ P x -> Selected P l kept -> Selected P (x :: l) kept.

(** A resource counts as a DeFi position when its type contains a marker. *)
Definition is_position (r : Resource) : Prop :=
  exists m, In m DeFiAdvisorAgent.markers /\ occurs_in m (type r).

(** The [value] fields that are present, in the order of the positions. *)
Definition present_values (positions : list Resource) : list value :=
  omap (fun p => match data p with
                 | Some fields => assoc "value" fields
                 | None => None
                 end) positions.

(** The position has a [data] object with a [value] field. *)
Definition has_value (p : Resource) : bool :=
  match data p with
  | Some fields => has_key "value" fields
  | None => false
  end.

(** The calls that build, sign and forward a transaction. *)
Definition is_submission (ev : Event) : bool :=
  match ev with
  | GenerateTransaction _ _ | SignTransaction _ | SubmitTransaction _ => true
  | _ => false
  end.

(** Registering a list of plugins, the head of the list last. *)
Definition register_all (regs : list (string * DeFiPlugin)) (ai : AptosAI) : AptosAI :=
  foldr (fun reg acc => registerPlugin reg.1 reg.2 acc) ai regs.

(** ** Scenarios *)

(** The two resources of the first end-to-end scenario. *)
Definition pool_resource : Resource :=
  {| type := "0x1::LiquidityPool::LP"; data := Some [("value", VStr "100")] |}.

Definition coin_resource : Resource :=
  {| type := "0x1::Coin"; data := Some [] |}.

(** The quotes of the second end-to-end scenario; the [dex] field tells the
    two quotes of 950 apart. *)
Definition quote (dex outputAmount : string) : value :=
  VObj [("dex", VStr dex); ("outputAmount", VStr outputAmount);
        ("priceImpact", VStr "0.1%")].

Definition three_quotes : list value :=
  [quote "a" "900"; quote "b" "950"; quote "c" "950"].

(** A staking position without a [value] field, and one without [data]. *)
Definition stake_resource : Resource :=
  {| type := "0x1::Stake::Pool"; data := Some [("locked", VStr "7")] |}.

Definition farm_resource : Resource :=
  {| type := "0x1::Farm::Plot"; data := None |}.

(** A world for the scenarios: the node answers every request for
    resources with [resources], the bot's parser reads every completion as
    [decision], the clock stands at [now], and everything else succeeds. *)
Definition scenario_env (resources : result (list Resource))
    (decision : result TradingDecision) (now : Z) : Env :=
  {| Date_now := fun _ => now;
     Date_toISOString := fun _ => "2025-02-18T15:06:00.000Z";
     new_AptosClient :=
       fun nodeUrl =>
         if String.eqb nodeUrl "" then Err "Node URL cannot be empty." else Ok nodeUrl;
     new_AptosAccount := fun key => Ok {| signingKey := key; address := VStr "0xb07" |};
     node_getAccountResources := fun _ _ _ => resources;
     node_getAccountTransactions := fun _ _ _ => Ok (VArr []);
     node_generateTransaction :=
       fun _ _ sender payload => Ok (VObj [("sender", sender); ("payload", payload)]);
     node_signTransaction := fun _ _ _ txnRequest => Ok (VObj [("signed", txnRequest)]);
     node_submitTransaction := fun _ _ _ => Ok (VObj [("hash", VStr "0x7e57")]);
     chat_completion := fun _ _ _ => Ok "BUY";
     JSON_stringify := ToString;
     JSON_stringify_indent := ToString;
     parseFloat_exceeds_one := fun _ => false;
     first_rejection := fun _ => 0%nat;
     utils_formatAmount := fun n => Ok (Z_toString n);
     fetchPrices := fun _ => Ok (VObj [("APT", VNum 9)]);
     fetchVolumes := fun _ => Ok (VObj [("APT", VNum 1000)]);
     fetchLiquidity := fun _ => Ok (VObj [("APT", VNum 500)]);
     parseTradeDecision := fun _ => decision;
     listeners := fun _ _ _ => Ok tt |}.

Definition no_decision : result TradingDecision := Err "no decision".

(** A world whose node is unreachable. *)
Definition offline_env : Env := scenario_env (Err "Network Error") no_decision 0.

(** A world whose node knows one resource. *)
Definition online_env : Env := scenario_env (Ok [pool_resource]) no_decision 0.

(** A facade without credentials and without plugins. *)
Definition bare_facade : AptosAI :=
  {| client := "https://fullnode.mainnet.aptoslabs.com";
     account := None;
     openai := None;
     plugins := ∅ |}.

(** A facade as the constructor builds it from the key "ab12". *)
Definition signing_facade : AptosAI :=
  {| client := "https://fullnode.mainnet.aptoslabs.com";
     account := Some {| signingKey := "ab12"; address := VStr "0xb07" |};
     openai := None;
     plugins := ∅ |}.

(** The fifth end-to-end scenario: a balance of 50 and a trade of 100. *)
Definition fifty_resource : Resource :=
  {| type := "0x1::coin::CoinStore<APT>";
     data := Some [("coin", VObj [("value", VStr "50")])] |}.

Definition trade_of_100 : TradeIntent :=
  {| protocol := "0xdex";
     fromToken := "0x1::coin::CoinStore<APT>";
     toToken := "0x1::coin::CoinStore<USDC>";
     amount := VStr "100";
     minOutput := VStr "95" |}.

Definition buy_decision : TradingDecision :=
  {| shouldTrade := true; trade := Some trade_of_100; reasoning := "momentum" |}.

(** The fourth end-to-end scenario: the clock, and a last trade 5 seconds
    before it. *)
Definition scenario_now : Z := 1739891160000.

Definition trading_env : Env :=
  scenario_env (Ok [fifty_resource]) (Ok buy_decision) scenario_now.

Definition scenario_bot (lastTrade : option Z) : TradingBot.t :=
  {| TradingBot.aptosAI :=
       registerPlugin "liquidityPool"
         (LiquidityPoolPlugin trading_env "https://fullnode.mainnet.aptoslabs.com")
         signing_facade;
     TradingBot.openai := "sk-test";
     TradingBot.strategy := TradingBot.loadStrategy "momentum";
     TradingBot.isRunning := true;
     TradingBot.lastTrade := lastTrade;
     TradingBot.minTradeInterval := 300000 |}.

(** A plugin that answers every action with one quote. *)
Definition quoting_plugin (dex outputAmount : string) : DeFiPlugin :=
  {| execute := fun _ _ => ret (quote dex outputAmount) |}.

(** A facade as the constructor builds it from a completion key alone. *)
Definition advising_facade : AptosAI :=
  {| client := "https://fullnode.mainnet.aptoslabs.com";
     account := None;
     openai := Some "sk-test";
     plugins := ∅ |}.

(** A resource that is not a pool, next to [pool_resource]. *)
Definition two_resources : list Resource := [coin_resource; pool_resource].

Definition pools_env : Env := scenario_env (Ok two_resources) no_decision 0.

(** A balance of 500, a decision not to trade, and the worlds and bots
    of further cycles. *)
Definition rich_resource : Resource :=
  {| type := "0x1::coin::CoinStore<APT>";
     data := Some [("coin", VObj [("value", VStr "500")])] |}.

Definition hold_decision : TradingDecision :=
  {| shouldTrade := false; trade := None; reasoning := "flat market" |}.

Definition rich_env : Env :=
  scenario_env (Ok [rich_resource]) (Ok buy_decision) scenario_now.

Definition holding_env : Env :=
  scenario_env (Ok [fifty_resource]) (Ok hold_decision) scenario_now.

Definition bot_in (env : Env) (facade : AptosAI) (lastTrade : option Z)
  : TradingBot.t :=
  {| TradingBot.aptosAI :=
       registerPlugin "liquidityPool"
         (LiquidityPoolPlugin env "https://fullnode.mainnet.aptoslabs.com") facade;
     TradingBot.openai := "sk-test";
     TradingBot.strategy := TradingBot.loadStrategy "momentum";
     TradingBot.isRunning := true;
     TradingBot.lastTrade := lastTrade;
     TradingBot.minTradeInterval := 300000 |}.

(** [env] with other answers of the volume source and of the listeners. *)
Definition with_volumes_and_listeners (env : Env)
    (volumes : trace -> result value)
    (heard : trace -> string -> value -> result unit) : Env :=
  {| Date_now := Date_now env;
     Date_toISOString := Date_toISOString env;
     new_AptosClient := new_AptosClient env;
     new_AptosAccount := new_AptosAccount env;
     node_getAccountResources := node_getAccountResources env;
     node_getAccountTransactions := node_getAccountTransactions env;
     node_generateTransaction := node_generateTransaction env;
     node_signTransaction := node_signTransaction env;
     node_submitTransaction := node_submitTransaction env;
     chat_completion := chat_completion env;
     JSON_stringify := JSON_stringify env;
     JSON_stringify_indent := JSON_stringify_indent env;
     parseFloat_exceeds_one := parseFloat_exceeds_one env;
     first_rejection := first_rejection env;
     utils_formatAmount := utils_formatAmount env;
     fetchPrices := fetchPrices env;
     fetchVolumes := volumes;
     fetchLiquidity := fetchLiquidity env;
     parseTradeDecision := parseTradeDecision env;
     listeners := heard |}.

(** A world whose volume source times out. *)
Definition closed_market_env : Env :=
  with_volumes_and_listeners rich_env (fun _ => Err "timeout") (listeners rich_env).

Definition swapPayload (tr : TradeIntent) : value :=
  VObj [("function", VStr (protocol tr +:+ "::router::swap"));
        ("type_arguments", VArr [VStr (fromToken tr); VStr (toToken tr)]);
        ("arguments", VArr [amount tr; minOutput tr])].

(** The request of every risk assessment. *)
Definition riskMessages : list (string * string) :=
  [("system", "You are a DeFi risk analyst specializing in Aptos protocols.");
   ("user",
    "Analyze the risk level of this protocol:" +:+
    nl +:+ spaces 28 +:+ "TVL: 1000000" +:+
    nl +:+ spaces 28 +:+ "Age: 6 months" +:+
    nl +:+ spaces 28 +:+ "Audit Status: true" +:+
    nl +:+ spaces 28 +:+ "Past Incidents: " +:+
    nl +:+ spaces 28)].

(** [rich_env] with an SDK that accepts keys of 64 hexadecimal digits only
    (32 bytes), as far as their length goes. *)
Definition strict_env : Env :=
  {| Date_now := Date_now rich_env;
     Date_toISOString := Date_toISOString rich_env;
     new_AptosClient := new_AptosClient rich_env;
     new_AptosAccount :=
       fun key =>
         if Nat.eqb (String.length key) 64
         then Ok {| signingKey := key; address := VStr "0xb07" |}
         else Err "bad seed size";
     node_getAccountResources := node_getAccountResources rich_env;
     node_getAccountTransactions := node_getAccountTransactions rich_env;
     node_generateTransaction := node_generateTransaction rich_env;
     node_signTransaction := node_signTransaction rich_env;
     node_submitTransaction := node_submitTransaction rich_env;
     chat_completion := chat_completion rich_env;
     JSON_stringify := JSON_stringify rich_env;
     JSON_stringify_indent := JSON_stringify_indent rich_env;
     parseFloat_exceeds_one := parseFloat_exceeds_one rich_env;
     first_rejection := first_rejection rich_env;
     utils_formatAmount := utils_formatAmount rich_env;
     fetchPrices := fetchPrices rich_env;
     fetchVolumes := fetchVolumes rich_env;
     fetchLiquidity := fetchLiquidity rich_env;
     parseTradeDecision := parseTradeDecision rich_env;
     listeners := listeners rich_env |}.

(** An advisor in the state [initializePlugins] aims at: a
    [LiquidityPoolPlugin] registered as "liquidityPool", and nothing else. *)
Definition shipped_advisor : DeFiAdvisorAgent.t :=
  {| DeFiAdvisorAgent.aptosAI :=
       registerPlugin "liquidityPool"
         (LiquidityPoolPlugin online_env "https://fullnode.mainnet.aptoslabs.com")
         bare_facade;
     DeFiAdvisorAgent.openai := "sk-test" |}.

(** ** Joined promises *)

Lemma first_rejected_In (env : Env) (t : trace) (e : error) (others : list error) :
  In (first_rejected env t e others) (e :: others).
Proof.
  unfold first_rejected. apply nth_In. simpl length.
  apply Nat.mod_upper_bound. discriminate.
Qed.

(** ** Occurrences in strings *)

Lemma append_String (c : ascii) (a b : string) :
  String c a +:+ b = String c (a +:+ b).
Proof. reflexivity. Qed.

Lemma startsWith_spec (s t : string) :
  startsWith s t = true <-> exists post, s = t +:+ post.
Proof.
  revert s. induction t as [|b t IH]; intros s; simpl.
  - split; [intros _; exists s; reflexivity | intros _; reflexivity].
  - destruct s as [|a s].
    + split; [discriminate | intros [post H]; discriminate].
    + destruct (Ascii.eqb_spec a b) as [->|Hne].
      * rewrite IH. split; intros [post H]; exists post;
          rewrite append_String in *; congruence.
      * split; [discriminate|].
        intros [post H]. rewrite append_String in H. congruence.
Qed.

Lemma includes_spec (s t : string) : includes s t = true <-> occurs_in t s.
Proof.
  unfold occurs_in. induction s as [|a s IH]; simpl.
  - rewrite orb_false_r, startsWith_spec. split.
    + intros [post H]. exists "", post. exact H.
    + intros (pre & post & H). destruct pre; [|discriminate].
      exists post. exact H.
  - rewrite orb_true_iff, startsWith_spec, IH. split.
    + intros [[post H]|(pre & post & H)].
      * exists "", post. exact H.
      * exists (String a pre), post. rewrite append_String. congruence.
    + intros (pre & post & H). destruct pre as [|b pre].
      * left. exists post. exact H.
      * right. exists pre, post. rewrite append_String in H. congruence.
Qed.

Lemma append_assoc (a b c : string) : (a +:+ b) +:+ c = a +:+ (b +:+ c).
Proof.
  induction a as [|x a IH]; [reflexivity|].
  rewrite !append_String, IH. reflexivity.
Qed.

Lemma append_empty_r (a : string) : a +:+ "" = a.
Proof.
  induction a as [|x a IH]; [reflexivity|].
  rewrite append_String, IH. reflexivity.
Qed.

Lemma occurs_in_refl (s : string) : occurs_in s s.
Proof. exists "", "". rewrite append_empty_r. reflexivity. Qed.

Lemma occurs_in_app_l (t s pre : string) : occurs_in t s -> occurs_in t (pre +:+ s).
Proof.
  intros (a & b & ->). exists (pre +:+ a), b. rewrite append_assoc. reflexivity.
Qed.

Lemma occurs_in_app_r (t s post : string) : occurs_in t s -> occurs_in t (s +:+ post).
Proof.
  intros (a & b & ->). exists a, (b +:+ post). rewrite !append_assoc. reflexivity.
Qed.

Lemma toLowerCase_app (a b : string) :
  toLowerCase (a +:+ b) = toLowerCase a +:+ toLowerCase b.
Proof.
  induction a as [|c a IH]; [reflexivity|].
  rewrite append_String. simpl. rewrite IH. reflexivity.
Qed.

Lemma toLowerCase_split (s x y : string) :
  toLowerCase s = x +:+ y ->
  exists a b, s = a +:+ b /\ toLowerCase a = x /\ toLowerCase b = y.
Proof.
  revert s. induction x as [|c x IH]; intros s H.
  - exists "", s. auto.
  - destruct s as [|d s]; [discriminate|].
    rewrite append_String in H. simpl in H.
    injection H as Hc Hs. destruct (IH _ Hs) as (a & b & -> & Ha & Hb).
    exists (String d a), b. rewrite append_String. simpl.
    repeat split; congruence.
Qed.

Lemma lower_unit_idem (c : ascii) : lower_unit (lower_unit c) = lower_unit c.
Proof.
  destruct c as [[] [] [] [] [] [] [] []]; reflexivity.
Qed.

Lemma toLowerCase_idem (s : string) : toLowerCase (toLowerCase s) = toLowerCase s.
Proof. induction s as [|c s IH]; simpl; [|rewrite lower_unit_idem, IH]; reflexivity. Qed.

(** The search of a term in the lower-cased text finds the mentions of the
    term in the text, whatever their case. *)
Lemma includes_toLowerCase (s term : string) :
  includes (toLowerCase s) (toLowerCase term) = true <-> mentions s term.
Proof.
  rewrite includes_spec. unfold occurs_in, mentions. split.
  - intros (pre & post & H).
    destruct (toLowerCase_split _ _ _ H) as (a & b & -> & Ha & Hb).
    destruct (toLowerCase_split _ _ _ Hb) as (m & c & -> & Hm & Hc).
    exists a, m, c. auto.
  - intros (pre & mid & post & -> & H).
    exists (toLowerCase pre), (toLowerCase post).
    rewrite !toLowerCase_app. congruence.
Qed.

(** ** The filter of DeFi positions *)

Lemma Selected_filter {A} (P : A -> Prop) (f : A -> bool) (l : list A) :
  (forall x, f x = true <-> P x) -> Selected P l (List.filter f l).
Proof.
  intros Hf. induction l as [|x l IH]; simpl.
  - constructor.
  - destruct (f x) eqn:E.
    + apply Selected_keep; [apply Hf, E | exact IH].
    + apply Selected_drop; [|exact IH].
      intros HP. apply Hf in HP. congruence.
Qed.

Lemma Selected_unique {A} (P : A -> Prop) (l k1 k2 : list A) :
  Selected P l k1 -> Selected P l k2 -> k1 = k2.
Proof.
  intros H1. revert k2. induction H1; intros k2 H2; inversion H2; subst;
    try reflexivity; try contradiction.
  - f_equal. auto.
  - auto.
Qed.

Lemma is_position_test (r : Resource) :
  includes (type r) "LiquidityPool" || includes (type r) "Stake" ||
    includes (type r) "Farm" = true <-> is_position r.
Proof.
  unfold is_position, DeFiAdvisorAgent.markers.
  rewrite !orb_true_iff, !includes_spec. split.
  - intros [[H|H]|H]; eexists; (split; [|exact H]); simpl; auto.
  - intros (m & [<-|[<-|[<-|[]]]] & H); auto.
Qed.

(** C3. For every list of resources, the filter of [analyzePortfolio] keeps
    exactly the resources whose type contains one of the markers
    "LiquidityPool", "Stake", "Farm", in their original order, and drops
    every other resource; no other list does so. On the two resources of
    the first scenario it keeps the first one only. *)
Theorem defiPositions_selected :
  (forall resources : list Resource,
     Selected is_position resources (DeFiAdvisorAgent.defiPositions resources) /\
     (forall kept, Selected is_position resources kept ->
                   kept = DeFiAdvisorAgent.defiPositions resources)) /\
  DeFiAdvisorAgent.defiPositions [pool_resource; coin_resource] = [pool_resource].
Proof.
  split; [|reflexivity].
  intros resources.
  assert (Selected is_position resources (DeFiAdvisorAgent.defiPositions resources))
    as Hsel by (apply Selected_filter, is_position_test).
  split; [exact Hsel|].
  intros kept Hk. exact (Selected_unique _ _ _ _ Hk Hsel).
Qed.

Lemma defiPositions_selected_witness :
  [pool_resource] = DeFiAdvisorAgent.defiPositions [pool_resource; coin_resource].
Proof.
  apply (proj2 (proj1 defiPositions_selected [pool_resource; coin_resource])).
  apply Selected_keep.
  - exists "LiquidityPool". split; [simpl; auto|].
    exists "0x1::", "::LP". reflexivity.
  - apply Selected_drop; [|constructor].
    intros H. apply is_position_test in H. discriminate H.
Defined.

(** ** The risk classifier *)

Lemma some_included_mentions (terms : list string) (s : string) :
  Forall (fun term => toLowerCase term = term) terms ->
  some_included terms (toLowerCase s) = true <->
  exists term, In term terms /\ mentions s term.
Proof.
  intros Hlow. unfold some_included. rewrite existsb_exists.
  rewrite List.Forall_forall in Hlow.
  split; intros (term & Hin & H); exists term; (split; [exact Hin|]).
  - apply includes_toLowerCase. rewrite (Hlow _ Hin). exact H.
  - apply includes_toLowerCase in H. rewrite (Hlow _ Hin) in H. exact H.
Qed.

Lemma highRiskTerms_lower :
  Forall (fun term => toLowerCase term = term) DeFiAdvisorAgent.highRiskTerms.
Proof. repeat constructor. Qed.

Lemma lowRiskTerms_lower :
  Forall (fun term => toLowerCase term = term) DeFiAdvisorAgent.lowRiskTerms.
Proof. repeat constructor. Qed.

(** C10. [determineRiskLevel] is a function on all strings and looks at the
    letters without their case: it answers HIGH exactly when the text
    mentions one of "dangerous", "risky", "unstable", "vulnerable" in any
    case; LOW exactly when it mentions none of these and one of "safe",
    "secure", "reliable", "established"; MEDIUM exactly when it mentions
    none of the eight; and two texts that differ in case only get the same
    answer, as do a text and its lower-casing. *)
Theorem determineRiskLevel_classifies (analysis : string) :
  let high := exists term, In term DeFiAdvisorAgent.highRiskTerms /\ mentions analysis term in
  let low := exists term, In term DeFiAdvisorAgent.lowRiskTerms /\ mentions analysis term in
  (DeFiAdvisorAgent.determineRiskLevel analysis = HIGH <-> high) /\
  (DeFiAdvisorAgent.determineRiskLevel analysis = LOW <-> ~ high /\ low) /\
  (DeFiAdvisorAgent.determineRiskLevel analysis = MEDIUM <-> ~ high /\ ~ low) /\
  (forall other, toLowerCase other = toLowerCase analysis ->
     DeFiAdvisorAgent.determineRiskLevel other =
     DeFiAdvisorAgent.determineRiskLevel analysis) /\
  DeFiAdvisorAgent.determineRiskLevel (toLowerCase analysis) =
    DeFiAdvisorAgent.determineRiskLevel analysis.
Proof.
  intros high low. subst high low.
  assert (DeFiAdvisorAgent.determineRiskLevel (toLowerCase analysis) =
          DeFiAdvisorAgent.determineRiskLevel analysis) as Hlower
    by (unfold DeFiAdvisorAgent.determineRiskLevel; rewrite toLowerCase_idem;
        reflexivity).
  match goal with
  | |- ?A /\ ?B /\ ?C /\ ?D /\ _ =>
      enough (A /\ B /\ C /\ D) as H4
        by (destruct H4 as (a & b & c & d);
            exact (conj a (conj b (conj c (conj d Hlower)))))
  end.
  clear Hlower.
  pose proof (some_included_mentions _ analysis highRiskTerms_lower) as Hh.
  pose proof (some_included_mentions _ analysis lowRiskTerms_lower) as Hl.
  unfold DeFiAdvisorAgent.determineRiskLevel.
  destruct (some_included DeFiAdvisorAgent.highRiskTerms (toLowerCase analysis)) eqn:Eh;
    [|destruct (some_included DeFiAdvisorAgent.lowRiskTerms (toLowerCase analysis)) eqn:El].
  - assert (exists term, In term DeFiAdvisorAgent.highRiskTerms /\ mentions analysis term)
      as H by (apply Hh; reflexivity).
    repeat split; try discriminate; try tauto.
    intros other ->. rewrite Eh. reflexivity.
  - assert (~ exists term, In term DeFiAdvisorAgent.highRiskTerms /\ mentions analysis term)
      as Hn by (intros H; apply Hh in H; discriminate).
    assert (exists term, In term DeFiAdvisorAgent.lowRiskTerms /\ mentions analysis term)
      as H by (apply Hl; reflexivity).
    repeat split; try discriminate; try tauto.
    intros other ->. rewrite Eh, El. reflexivity.
  - assert (~ exists term, In term DeFiAdvisorAgent.highRiskTerms /\ mentions analysis term)
      as Hn by (intros H; apply Hh in H; discriminate).
    assert (~ exists term, In term DeFiAdvisorAgent.lowRiskTerms /\ mentions analysis term)
      as Hn' by (intros H; apply Hl in H; discriminate).
    repeat split; try discriminate; try tauto.
    intros other ->. rewrite Eh, El. reflexivity.
Qed.

Lemma determineRiskLevel_classifies_witness :
  DeFiAdvisorAgent.determineRiskLevel "this pool looks SAFE, yet Risky" = HIGH /\
  DeFiAdvisorAgent.determineRiskLevel "THIS POOL LOOKS SAFE, YET RISKY" =
  DeFiAdvisorAgent.determineRiskLevel "this pool looks SAFE, yet Risky".
Proof.
  destruct (determineRiskLevel_classifies "this pool looks SAFE, yet Risky")
    as (Hhigh & _ & _ & Hcase & _).
  split.
  - apply Hhigh. exists "risky". split; [simpl; auto|].
    exists "this pool looks SAFE, yet ", "Risky", "". split; reflexivity.
  - apply Hcase. reflexivity.
Defined.

(** ** The total value of the positions *)

Lemma addValues_sum (positions : list Resource) :
  forall (acc : Z) (amounts : list Z),
    Forall2 (fun v n => BigInt v = Ok n) (present_values positions) amounts ->
    DeFiAdvisorAgent.addValues acc positions = Ok (acc + foldr Z.add 0 amounts).
Proof.
  induction positions as [|p ps IH]; intros acc amounts H; simpl in *.
  - inversion H; subst. simpl. f_equal. lia.
  - destruct (data p) as [fields|]; [destruct (assoc "value" fields) as [v|]|];
      try (apply IH; exact H).
    inversion H as [|? n ? rest Hv Hrest]; subst.
    rewrite Hv. simpl. rewrite (IH _ _ Hrest). f_equal. lia.
Qed.

Lemma addValues_skips (positions : list Resource) :
  forall acc : Z,
    DeFiAdvisorAgent.addValues acc (List.filter has_value positions) =
    DeFiAdvisorAgent.addValues acc positions.
Proof.
  induction positions as [|p ps IH]; intros acc; simpl; [reflexivity|].
  unfold has_value, has_key.
  destruct (data p) as [fields|] eqn:Ed;
    [destruct (assoc "value" fields) as [v|] eqn:Ev|]; simpl; try apply IH.
  rewrite Ed, Ev. destruct (BigInt v); simpl; [apply IH | reflexivity].
Qed.

Lemma addValues_failure (positions : list Resource) :
  forall (acc : Z) (e : error),
    DeFiAdvisorAgent.addValues acc positions = Err e ->
    exists v, In v (present_values positions) /\ BigInt v = Err e.
Proof.
  induction positions as [|p ps IH]; intros acc e H; simpl in *; [discriminate|].
  destruct (data p) as [fields|]; [destruct (assoc "value" fields) as [v|]|];
    try (apply (IH _ _ H)).
  destruct (BigInt v) as [n|e'] eqn:Ev; simpl in H.
  - destruct (IH _ _ H) as (w & Hin & Hw). exists w. split; [right|]; assumption.
  - injection H as <-. exists v. split; [left; reflexivity | exact Ev].
Qed.

(** C9. In [analyzePortfolio] the total is the exact integer sum of the
    [value] fields that are present: when each of them converts to a BigInt
    the total is their sum in [Z], without bound or rounding; the positions
    without a [data] object holding a [value] field are skipped, the total
    being that of the positions that have one; and a failure of the sum
    comes from a [value] that is present, never from a position without. *)
Theorem totalValue_sums_present_values (positions : list Resource) :
  (forall amounts : list Z,
     Forall2 (fun v n => BigInt v = Ok n) (present_values positions) amounts ->
     DeFiAdvisorAgent.totalValue positions = Ok (foldr Z.add 0 amounts)) /\
  DeFiAdvisorAgent.totalValue (List.filter has_value positions) =
    DeFiAdvisorAgent.totalValue positions /\
  (forall e : error,
     DeFiAdvisorAgent.totalValue positions = Err e ->
     exists v, In v (present_values positions) /\ BigInt v = Err e).
Proof.
  unfold DeFiAdvisorAgent.totalValue. repeat split.
  - intros amounts H. apply (addValues_sum positions 0 amounts H).
  - apply addValues_skips.
  - intros e. apply addValues_failure.
Qed.

Lemma totalValue_sums_present_values_witness :
  DeFiAdvisorAgent.totalValue
    [pool_resource; stake_resource; farm_resource; coin_resource] = Ok 100.
Proof.
  apply (proj1 (totalValue_sums_present_values
                  [pool_resource; stake_resource; farm_resource; coin_resource])
               [100]).
  repeat constructor.
Defined.

(** ** The best quote *)

Lemma reduce_from_better (rest : list value) (restz : list Z) :
  Forall2 (fun q z => DeFiAdvisorAgent.outputAmount q = Ok z) rest restz ->
  forall (acc : value) (zacc : Z),
    DeFiAdvisorAgent.outputAmount acc = Ok zacc ->
    exists best zbest,
      DeFiAdvisorAgent.reduce_from DeFiAdvisorAgent.better acc rest = Ok best /\
      zacc <= zbest /\
      Forall (fun z => z <= zbest) restz /\
      ((best = acc /\ zbest = zacc) \/
       (exists j : nat,
          rest !! j = Some best /\ restz !! j = Some zbest /\ zacc < zbest /\
          forall (j' : nat) (z' : Z),
            (j' < j)%nat -> restz !! j' = Some z' -> z' < zbest)).
Proof.
  induction 1 as [|q z rest restz Hq Hrest IH]; intros acc zacc Hacc.
  - exists acc, zacc.
    split; [reflexivity|]. split; [lia|]. split; [constructor|]. left. auto.
  - simpl. unfold DeFiAdvisorAgent.better at 1. rewrite Hq, Hacc. simpl.
    destruct (Z.gtb_spec z zacc) as [Hgt|Hle].
    + destruct (IH q z Hq) as (best & zbest & Hred & Hge & Hall & Hwhere).
      exists best, zbest.
      split; [exact Hred|]. split; [lia|]. split; [constructor; [lia | exact Hall]|].
      right. destruct Hwhere as [[-> ->]|(j & Hj & Hzj & Hlt & Hbefore)].
      * exists 0%nat.
        split; [reflexivity|]. split; [reflexivity|]. split; [lia|].
        intros j' z' Hj'. lia.
      * exists (S j).
        split; [exact Hj|]. split; [exact Hzj|]. split; [lia|].
        intros [|j'] z' Hj' Hz'; simpl in Hz'.
        -- injection Hz' as <-. exact Hlt.
        -- apply (Hbefore j'); [lia | exact Hz'].
    + destruct (IH acc zacc Hacc) as (best & zbest & Hred & Hge & Hall & Hwhere).
      exists best, zbest.
      split; [exact Hred|]. split; [lia|]. split; [constructor; [lia | exact Hall]|].
      destruct Hwhere as [[-> ->]|(j & Hj & Hzj & Hlt & Hbefore)]; [left; auto|].
      right. exists (S j).
      split; [exact Hj|]. split; [exact Hzj|]. split; [exact Hlt|].
      intros [|j'] z' Hj' Hz'; simpl in Hz'.
      * injection Hz' as <-. lia.
      * apply (Hbefore j'); [lia | exact Hz'].
Qed.

(** C2. For every list of quotes that is not empty and whose [outputAmount]
    fields read as BigInts, the reduction of [suggestOptimalSwap] returns a
    quote of the list whose amount is maximal, and the first one in input
    order with that amount: every quote before it has a strictly smaller
    amount. For the amounts "900", "950", "950" it is the quote at index 1. *)
Theorem bestQuote_first_maximum :
  (forall (quotes : list value) (amounts : list Z),
     quotes <> [] ->
     Forall2 (fun q z => DeFiAdvisorAgent.outputAmount q = Ok z) quotes amounts ->
     exists (i : nat) (best : value) (top : Z),
       DeFiAdvisorAgent.bestQuote quotes = Ok best /\
       quotes !! i = Some best /\
       amounts !! i = Some top /\
       (forall (j : nat) (z : Z), amounts !! j = Some z -> z <= top) /\
       (forall (j : nat) (z : Z), (j < i)%nat -> amounts !! j = Some z -> z < top)) /\
  DeFiAdvisorAgent.bestQuote three_quotes = Ok (quote "b" "950") /\
  three_quotes !! 1%nat = Some (quote "b" "950").
Proof.
  split; [|split; reflexivity].
  intros quotes amounts Hne H.
  destruct H as [|q0 z0 rest restz Hq0 Hrest]; [congruence|].
  destruct (reduce_from_better rest restz Hrest q0 z0 Hq0)
    as (best & zbest & Hred & Hge & Hall & Hwhere).
  rewrite Forall_lookup in Hall.
  destruct Hwhere as [[-> ->]|(j & Hj & Hzj & Hlt & Hbefore)].
  - exists 0%nat, q0, z0.
    split; [exact Hred|]. split; [reflexivity|]. split; [reflexivity|]. split.
    + intros [|j] z Hz; simpl in Hz; [injection Hz as <-; lia | apply (Hall j z Hz)].
    + intros j z Hj. lia.
  - exists (S j), best, zbest.
    split; [exact Hred|]. split; [exact Hj|]. split; [exact Hzj|]. split.
    + intros [|j'] z Hz; simpl in Hz; [injection Hz as <-; lia | apply (Hall j' z Hz)].
    + intros [|j'] z Hlt' Hz; simpl in Hz.
      * injection Hz as <-. exact Hlt.
      * apply (Hbefore j'); [lia | exact Hz].
Qed.

Lemma bestQuote_first_maximum_witness :
  exists (i : nat) (best : value) (top : Z),
    DeFiAdvisorAgent.bestQuote three_quotes = Ok best /\
    three_quotes !! i = Some best /\
    [900; 950; 950] !! i = Some top /\
    (forall (j : nat) (z : Z), [900; 950; 950] !! j = Some z -> z <= top) /\
    (forall (j : nat) (z : Z), (j < i)%nat -> [900; 950; 950] !! j = Some z -> z < top).
Proof.
  apply (proj1 bestQuote_first_maximum three_quotes [900; 950; 950]).
  - discriminate.
  - repeat constructor.
Defined.

(** ** The balance of an account *)

Lemma find_first {A} (f : A -> bool) (before : list A) (x : A) (after : list A) :
  f x = true ->
  (forall y, In y before -> f y = false) ->
  List.find f (before ++ x :: after)%list = Some x.
Proof.
  intros Hx. induction before as [|y before IH]; intros Hb; simpl.
  - rewrite Hx. reflexivity.
  - rewrite (Hb y) by (left; reflexivity). apply IH.
    intros z Hz. apply Hb. right. exact Hz.
Qed.

Lemma find_absent {A} (f : A -> bool) (l : list A) :
  (forall y, In y l -> f y = false) -> List.find f l = None.
Proof.
  induction l as [|y l IH]; intros H; simpl; [reflexivity|].
  rewrite (H y) by (left; reflexivity). apply IH.
  intros z Hz. apply H. right. exact Hz.
Qed.

(** C1, as the code has it. [getAccountBalance] asks the node for the
    resources once. When the request fails, the operation fails with the
    same error: nothing is masked as a zero balance. When the request
    succeeds, the operation succeeds: it answers "0" when no resource has
    exactly the requested coin type, and otherwise looks at the first
    resource of that type, answering its [data.coin.value] or "0" when that
    is missing or falsy. *)
Theorem getAccountBalance_outcome (env : Env) (this : AptosAI) (address : string)
    (coinType : option string) (t : trace) :
  let coin := match coinType with Some c => c | None => default_coinType end in
  let asked := GetAccountResources (VStr address) in
  (forall e : error,
     node_getAccountResources env t (client this) (VStr address) = Err e ->
     getAccountBalance env this address coinType t = (Err e, asked :: t)) /\
  (forall resources : list Resource,
     node_getAccountResources env t (client this) (VStr address) = Ok resources ->
     exists v : value,
       getAccountBalance env this address coinType t = (Ok v, asked :: t) /\
       ((forall r, In r resources -> type r <> coin) -> v = VStr "0") /\
       (forall before r after,
          resources = (before ++ r :: after)%list ->
          type r = coin ->
          (forall r', In r' before -> type r' <> coin) ->
          v = or_else (coin_value (Some r)) (VStr "0"))).
Proof.
  intros coin asked. split.
  - intros e He.
    unfold getAccountBalance, getAccountResources, bind, call. rewrite He. reflexivity.
  - intros resources Hr.
    unfold getAccountBalance, getAccountResources, bind, call, ret. rewrite Hr.
    eexists. split; [reflexivity|]. fold coin. split.
    + intros Hnone. rewrite find_absent; [reflexivity|].
      intros y Hy. apply String.eqb_neq. apply Hnone, Hy.
    + intros before r after -> Hcoin Hbefore.
      rewrite (find_first _ before r after); [reflexivity | |].
      * apply String.eqb_eq, Hcoin.
      * intros y Hy. apply String.eqb_neq, Hbefore, Hy.
Qed.

Lemma getAccountBalance_outcome_witness :
  getAccountBalance offline_env bare_facade "0xa11ce" None [] =
    (Err "Network Error", [GetAccountResources (VStr "0xa11ce")]) /\
  exists v : value,
    getAccountBalance online_env bare_facade "0xa11ce" None [] =
      (Ok v, [GetAccountResources (VStr "0xa11ce")]) /\
    v = VStr "0".
Proof.
  split.
  - apply (proj1 (getAccountBalance_outcome offline_env bare_facade "0xa11ce" None [])).
    reflexivity.
  - destruct (proj2 (getAccountBalance_outcome online_env bare_facade "0xa11ce" None [])
                [pool_resource] eq_refl) as (v & Hv & Hzero & _).
    exists v. split; [exact Hv|].
    apply Hzero. intros r [<-|[]]. discriminate.
Defined.

(** C1, as the specification has it, fails: with the node unreachable the operation
    fails with the node's error instead of answering "0". *)
Lemma getAccountBalance_masks_errors_counterexample :
  node_getAccountResources offline_env [] (client bare_facade) (VStr "0xa11ce") =
    Err "Network Error" /\
  fst (getAccountBalance offline_env bare_facade "0xa11ce" None []) =
    Err "Network Error" /\
  fst (getAccountBalance offline_env bare_facade "0xa11ce" None []) <> Ok (VStr "0").
Proof. repeat split. discriminate. Qed.

(** ** The plugin registry *)

Lemma new_AptosAI_plugins (env : Env) (nodeUrl : string)
    (privateKey openaiKey : option string) (ai : AptosAI) :
  new_AptosAI env nodeUrl privateKey openaiKey = Ok ai -> plugins ai = ∅.
Proof.
  unfold new_AptosAI. intros H.
  destruct (new_AptosClient env nodeUrl) as [c|e]; simpl in H; [|discriminate].
  destruct privateKey as [key|]; simpl in H;
    [destruct (negb (String.eqb key "")); simpl in H;
     [destruct (new_AptosAccount env key); simpl in H|]|];
    try discriminate; injection H as <-; reflexivity.
Qed.

Lemma register_all_lookup_other (regs : list (string * DeFiPlugin)) (ai : AptosAI)
    (name : string) :
  ~ In name (map fst regs) ->
  plugins (register_all regs ai) !! name = plugins ai !! name.
Proof.
  induction regs as [|[n p] regs IH]; intros Hnot; simpl in *; [reflexivity|].
  rewrite lookup_insert_ne by (intros ->; apply Hnot; left; reflexivity).
  apply IH. intros Hin. apply Hnot. right. exact Hin.
Qed.

Lemma unknown_action_not_plugin_not_found (action pluginName : string) :
  unknown_action action <> plugin_not_found pluginName.
Proof. unfold unknown_action, plugin_not_found. discriminate. Qed.

(** C4. On a facade as constructed, after any sequence of registrations,
    the empty one included: a dispatch to a name that was never registered
    fails with "Plugin ... not found", whatever the action and the params,
    and calls nobody; a dispatch to a name that holds a
    [LiquidityPoolPlugin], with an action other than "getPoolInfo" and
    "calculateSwap", fails with "Unknown action: ...", and calls nobody; an
    unknown-action error is never a not-found error; and a dispatch to any
    registered name is the call of [execute] on the plugin it holds, so that
    its failures are the plugin's. *)
Theorem executePluginAction_failures (env : Env) (nodeUrl : string)
    (privateKey openaiKey : option string) (ai : AptosAI)
    (regs : list (string * DeFiPlugin)) :
  new_AptosAI env nodeUrl privateKey openaiKey = Ok ai ->
  (forall (unregistered action : string) (params : value) (t : trace),
     ~ In unregistered (map fst regs) ->
     executePluginAction (register_all regs ai) unregistered action params t =
       (Err (plugin_not_found unregistered), t)) /\
  (forall (registered : string) (poolClient : AptosClient) (action : string)
          (params : value) (t : trace),
     plugins (register_all regs ai) !! registered =
       Some (LiquidityPoolPlugin env poolClient) ->
     action <> "getPoolInfo" ->
     action <> "calculateSwap" ->
     executePluginAction (register_all regs ai) registered action params t =
       (Err (unknown_action action), t)) /\
  (forall action name : string, unknown_action action <> plugin_not_found name) /\
  (forall (name : string) (plugin : DeFiPlugin) (action : string) (params : value)
          (t : trace),
     plugins (register_all regs ai) !! name = Some plugin ->
     executePluginAction (register_all regs ai) name action params t =
       execute plugin action params t).
Proof.
  intros Hnew. split; [|split; [|split]].
  - intros unregistered action params t Hnot. unfold executePluginAction.
    rewrite (register_all_lookup_other _ _ _ Hnot), (new_AptosAI_plugins _ _ _ _ _ Hnew).
    rewrite lookup_empty. reflexivity.
  - intros registered poolClient action params t Hreg Hinfo Hswap.
    unfold executePluginAction. rewrite Hreg. simpl.
    unfold LiquidityPoolPlugin_execute.
    apply String.eqb_neq in Hinfo, Hswap. rewrite Hinfo, Hswap. reflexivity.
  - intros action name. apply unknown_action_not_plugin_not_found.
  - intros name plugin action params t Hp.
    unfold executePluginAction. rewrite Hp. reflexivity.
Qed.

Lemma executePluginAction_failures_witness :
  executePluginAction (register_all [] bare_facade)
    "liquidityPool" "getPoolInfo" (VObj [("poolAddress", VStr "0x...")]) [] =
    (Err (plugin_not_found "liquidityPool"), []) /\
  executePluginAction
    (register_all [("liquidityPool", LiquidityPoolPlugin online_env "https://node")]
                  bare_facade)
    "liquidityPool" "unknownAction" (VObj []) [] =
    (Err (unknown_action "unknownAction"), []).
Proof.
  split.
  - apply (proj1 (executePluginAction_failures online_env
                    "https://fullnode.mainnet.aptoslabs.com" None None bare_facade []
                    eq_refl)).
    simpl. intros [].
  - apply (proj1 (proj2 (executePluginAction_failures online_env
                           "https://fullnode.mainnet.aptoslabs.com" None None bare_facade
                           [("liquidityPool", LiquidityPoolPlugin online_env "https://node")]
                           eq_refl))
             "liquidityPool" "https://node").
    + simpl. apply lookup_insert_eq.
    + discriminate.
    + discriminate.
Defined.

(** ** Submitting a transaction *)

Lemma trace_grows (ev : Event) (t : trace) : ev :: t <> t.
Proof.
  intros H. apply (f_equal (@List.length Event)) in H. simpl in H. lia.
Qed.

Lemma new_AptosAI_account (env : Env) (nodeUrl : string)
    (privateKey openaiKey : option string) (this : AptosAI) :
  new_AptosAI env nodeUrl privateKey openaiKey = Ok this ->
  match account this with
  | None => privateKey = None \/ privateKey = Some ""
  | Some acct =>
      exists key, privateKey = Some key /\ key <> "" /\
                  new_AptosAccount env key = Ok acct
  end.
Proof.
  unfold new_AptosAI. intros H.
  destruct (new_AptosClient env nodeUrl) as [c|e]; simpl in H; [|discriminate].
  destruct privateKey as [key|]; simpl in H.
  - destruct (String.eqb_spec key "") as [->|Hne]; simpl in H.
    + injection H as <-. simpl. right. reflexivity.
    + destruct (new_AptosAccount env key) as [acct|e] eqn:Ea; simpl in H;
        [|discriminate].
      injection H as <-. simpl. exists key. auto.
  - injection H as <-. simpl. left. reflexivity.
Qed.

Lemma register_all_credentials (regs : list (string * DeFiPlugin)) (ai : AptosAI) :
  client (register_all regs ai) = client ai /\
  account (register_all regs ai) = account ai /\
  openai (register_all regs ai) = openai ai.
Proof.
  induction regs as [|[n p] regs IH]; simpl; [auto|exact IH].
Qed.

(** C7. On a facade as constructed, whatever plugins have been registered
    on it since, [submitTransaction] fails with "Account not initialized.
    ..." before any call on the node exactly when no private key, or an
    empty one, was given to the constructor. With an account, it asks the
    node to build the transaction, signs it and forwards it, in this order,
    each step only when the one before has succeeded: a failure to build or
    to sign is the outcome and nothing is forwarded, and otherwise the
    outcome is the node's answer to the one submission. The facade itself
    is not written to. *)
Theorem submitTransaction_signer (env : Env) (nodeUrl : string)
    (privateKey openaiKey : option string) (ai : AptosAI)
    (regs : list (string * DeFiPlugin)) (payload : value) (t : trace) :
  new_AptosAI env nodeUrl privateKey openaiKey = Ok ai ->
  (submitTransaction env (register_all regs ai) payload t =
     (Err not_initialized, t) <->
   privateKey = None \/ privateKey = Some "") /\
  (forall acct : AptosAccount,
     account (register_all regs ai) = Some acct ->
     (exists key, privateKey = Some key /\ key <> "" /\
                  new_AptosAccount env key = Ok acct) /\
     let this := register_all regs ai in
     let t1 := GenerateTransaction (address acct) payload :: t in
     match node_generateTransaction env t (client this) (address acct) payload with
     | Err e => submitTransaction env this payload t = (Err e, t1)
     | Ok txnRequest =>
         let t2 := SignTransaction txnRequest :: t1 in
         match node_signTransaction env t1 (client this) acct txnRequest with
         | Err e => submitTransaction env this payload t = (Err e, t2)
         | Ok signedTxn =>
             submitTransaction env this payload t =
               (node_submitTransaction env t2 (client this) signedTxn,
                SubmitTransaction signedTxn :: t2)
         end
     end).
Proof.
  intros Hnew. pose proof (new_AptosAI_account _ _ _ _ _ Hnew) as Hacct.
  destruct (register_all_credentials regs ai) as (Hclient & Haccount & _).
  rewrite <- Haccount in Hacct. clear Hclient Haccount Hnew.
  remember (register_all regs ai) as this eqn:Ethis. clear Ethis.
  unfold submitTransaction. split.
  - destruct (account this) as [acct|].
    + destruct Hacct as (key & -> & Hne & _). split.
      * unfold bind, call.
        destruct (node_generateTransaction env t (client this) (address acct) payload);
          [destruct (node_signTransaction env _ (client this) acct a)|];
          intros H; injection H as _ H; exfalso.
        -- apply (f_equal (@List.length Event)) in H. simpl in H. lia.
        -- apply (f_equal (@List.length Event)) in H. simpl in H. lia.
        -- exact (trace_grows _ _ H).
      * intros [H|H]; [discriminate | congruence].
    + split; [intros _; exact Hacct | reflexivity].
  - intros acct Ha. rewrite Ha in *. split; [exact Hacct|].
    unfold bind, call. simpl.
    destruct (node_generateTransaction env t (client this) (address acct) payload);
      [destruct (node_signTransaction env _ (client this) acct a)|]; reflexivity.
Qed.

Lemma submitTransaction_signer_witness :
  (submitTransaction online_env
     (register_all [("liquidityPool", LiquidityPoolPlugin online_env "https://node")]
        bare_facade) (VObj []) [] = (Err not_initialized, []) <->
   @None string = None \/ None = Some "") /\
  submitTransaction online_env
    (register_all [("liquidityPool", LiquidityPoolPlugin online_env "https://node")]
       signing_facade) (VObj []) [] =
    (Ok (VObj [("hash", VStr "0x7e57")]),
     [SubmitTransaction
        (VObj [("signed", VObj [("sender", VStr "0xb07"); ("payload", VObj [])])]);
      SignTransaction (VObj [("sender", VStr "0xb07"); ("payload", VObj [])]);
      GenerateTransaction (VStr "0xb07") (VObj [])]).
Proof.
  split.
  - apply (submitTransaction_signer online_env
             "https://fullnode.mainnet.aptoslabs.com" None None bare_facade
             [("liquidityPool", LiquidityPoolPlugin online_env "https://node")]
             (VObj []) []).
    reflexivity.
  - apply (proj2 (submitTransaction_signer online_env
                    "https://fullnode.mainnet.aptoslabs.com" (Some "ab12") None
                    signing_facade
                    [("liquidityPool", LiquidityPoolPlugin online_env "https://node")]
                    (VObj []) [] eq_refl)
                 {| signingKey := "ab12"; address := VStr "0xb07" |} eq_refl).
Defined.

(** ** The trading cycle *)

(** C6. A cycle entered when less than [minTradeInterval] milliseconds have
    passed since the last recorded trade returns at once: it succeeds, issues
    no call at all (no market data, no completion, no transaction), and
    leaves the bot as it was. *)
Theorem monitorAndTrade_too_soon (env : Env) (this : TradingBot.t) (t : trace)
    (last : Z) :
  TradingBot.lastTrade this = Some last ->
  Date_now env t - last < TradingBot.minTradeInterval this ->
  TradingBot.monitorAndTrade env this t = (Ok tt, this, t).
Proof.
  intros Hlast Hsoon. unfold TradingBot.monitorAndTrade, TradingBot.too_soon.
  rewrite Hlast. apply Z.ltb_lt in Hsoon. rewrite Hsoon. reflexivity.
Qed.

Lemma monitorAndTrade_too_soon_witness :
  TradingBot.monitorAndTrade trading_env (scenario_bot (Some (scenario_now - 5000))) [] =
    (Ok tt, scenario_bot (Some (scenario_now - 5000)), []).
Proof.
  apply (monitorAndTrade_too_soon trading_env
           (scenario_bot (Some (scenario_now - 5000))) [] (scenario_now - 5000)).
  - reflexivity.
  - reflexivity.
Defined.

Lemma getMarketData_calls (env : Env) (t : trace) :
  snd (TradingBot.getMarketData env t) =
    FetchLiquidity :: FetchVolumes :: FetchPrices :: t.
Proof.
  unfold TradingBot.getMarketData, rethrow, bind, Promise_all3, call.
  destruct (fetchPrices env t), (fetchVolumes env _), (fetchLiquidity env _);
    reflexivity.
Qed.

Lemma validateTrade_throws (env : Env) (this : TradingBot.t)
    (trade : option TradeIntent) (t : trace) :
  TradingBot.validateTrade env this trade t =
    (Err "this.aptosAI.getAddress is not a function", t).
Proof. reflexivity. Qed.

(** C5. What the code does where the claim expects the insufficient-balance
    error. Take a cycle that reaches the validation of a trade: the interval
    has passed, the market data arrive, the model answers and its answer is
    read as a decision to trade. Whatever the balance of the account and the
    amount of the trade, the cycle then fails with "this.aptosAI.getAddress
    is not a function" under the prefixes of the two enclosing operations,
    and not with the insufficient-balance error: the balance is never asked
    for. The bot is left as it was, and the calls issued are the three
    market requests and the completion: nothing is built, signed or
    submitted. *)
Theorem monitorAndTrade_validation_throws (env : Env) (this : TradingBot.t)
    (t t1 t2 : trace) (marketData : value) (content : string)
    (decision : TradingDecision) :
  TradingBot.too_soon env this t = false ->
  TradingBot.getMarketData env t = (Ok marketData, t1) ->
  chat env (TradingBot.analysisMessages env this marketData) t1 = (Ok content, t2) ->
  parseTradeDecision env content = Ok decision ->
  shouldTrade decision = true ->
  TradingBot.monitorAndTrade env this t =
    (Err ("Trading cycle failed: Market analysis failed: " +:+
          "this.aptosAI.getAddress is not a function"),
     this, t2) /\
  TradingBot.monitorAndTrade env this t <>
    (Err "Trading cycle failed: Market analysis failed: Insufficient balance for trade",
     this, t2) /\
  t2 = ([ChatCompletion "gpt-4" (TradingBot.analysisMessages env this marketData);
         FetchLiquidity; FetchVolumes; FetchPrices] ++ t)%list /\
  existsb is_submission
    [ChatCompletion "gpt-4" (TradingBot.analysisMessages env this marketData);
     FetchLiquidity; FetchVolumes; FetchPrices] = false.
Proof.
  intros Hgate Hmd Hchat Hparse Hshould.
  assert (Hrun : TradingBot.monitorAndTrade env this t =
                   (Err ("Trading cycle failed: Market analysis failed: " +:+
                         "this.aptosAI.getAddress is not a function"),
                    this, t2)).
  { unfold TradingBot.monitorAndTrade. rewrite Hgate.
    unfold TradingBot.decide_and_trade. unfold bind at 1. rewrite Hmd.
    unfold bind at 1. unfold TradingBot.analyzeMarket, rethrow.
    unfold bind at 1. rewrite Hchat.
    unfold bind at 1. unfold liftR at 1. rewrite Hparse.
    unfold bind at 1. rewrite Hshould. rewrite validateTrade_throws. reflexivity. }
  split; [exact Hrun|]. split; [rewrite Hrun; discriminate|].
  split; [|reflexivity].
  pose proof (getMarketData_calls env t) as H1. rewrite Hmd in H1. simpl in H1.
  unfold chat, call in Hchat. injection Hchat as _ H2. subst. reflexivity.
Qed.

Lemma monitorAndTrade_validation_throws_witness :
  TradingBot.monitorAndTrade trading_env (scenario_bot None) [] =
    (Err ("Trading cycle failed: Market analysis failed: " +:+
          "this.aptosAI.getAddress is not a function"),
     scenario_bot None,
     [ChatCompletion "gpt-4"
        (TradingBot.analysisMessages trading_env (scenario_bot None)
           (VObj [("prices", VObj [("APT", VNum 9)]);
                  ("volumes", VObj [("APT", VNum 1000)]);
                  ("liquidityDepth", VObj [("APT", VNum 500)]);
                  ("timestamp", VStr "2025-02-18T15:06:00.000Z")]));
      FetchLiquidity; FetchVolumes; FetchPrices]).
Proof.
  destruct (monitorAndTrade_validation_throws trading_env (scenario_bot None)
              [] _ _ _ "BUY" buy_decision
              eq_refl eq_refl eq_refl eq_refl eq_refl) as [H _].
  exact H.
Defined.

(** ** The swap suggestion *)

Lemma first_rejected_same (env : Env) (t : trace) (e : error) :
  first_rejected env t e [e] = e.
Proof.
  destruct (first_rejected_In env t e [e]) as [H|[H|[]]]; symmetry; exact H.
Qed.




(** ** More on the registry *)

(** X1. Registration is last-write-wins and touches one name: a dispatch to
    a name goes to the plugin registered last under it, a dispatch to any
    other name goes where it went before, and the client and the credentials
    of the facade are kept. *)
Theorem registerPlugin_last_write_wins (this : AptosAI) (name other : string)
    (first second : DeFiPlugin) (action : string) (params : value) (t : trace) :
  other <> name ->
  executePluginAction (registerPlugin name second (registerPlugin name first this))
    name action params t = execute second action params t /\
  executePluginAction (registerPlugin name second this) other action params t =
    executePluginAction this other action params t /\
  client (registerPlugin name second this) = client this /\
  account (registerPlugin name second this) = account this /\
  openai (registerPlugin name second this) = openai this.
Proof.
  intros Hne. unfold executePluginAction, registerPlugin. cbn [plugins].
  rewrite lookup_insert_eq, lookup_insert_ne by congruence.
  repeat split.
Qed.

Lemma registerPlugin_last_write_wins_witness :
  executePluginAction
    (registerPlugin "liquidityPool" (quoting_plugin "b" "950")
       (registerPlugin "liquidityPool" (quoting_plugin "a" "900") bare_facade))
    "liquidityPool" "calculateSwap" (VObj []) [] = (Ok (quote "b" "950"), []).
Proof.
  apply (registerPlugin_last_write_wins bare_facade "liquidityPool" "oracle"
           (quoting_plugin "a" "900") (quoting_plugin "b" "950")
           "calculateSwap" (VObj []) []).
  discriminate.
Defined.

(** ** The transaction history *)

Lemma new_AptosAI_openai (env : Env) (nodeUrl : string)
    (privateKey openaiKey : option string) (this : AptosAI) :
  new_AptosAI env nodeUrl privateKey openaiKey = Ok this ->
  match openai this with
  | None => openaiKey = None \/ openaiKey = Some ""
  | Some key => openaiKey = Some key /\ key <> ""
  end.
Proof.
  unfold new_AptosAI. intros H.
  destruct (new_AptosClient env nodeUrl) as [c|e0]; simpl in H; [|discriminate].
  assert (Ho : openai this =
                match openaiKey with
                | Some key => if truthy (VStr key) then Some key else None
                | None => None
                end).
  { destruct privateKey as [key|]; simpl in H;
      [destruct (negb (String.eqb key "")); simpl in H;
       [destruct (new_AptosAccount env key); simpl in H|]|];
      try discriminate; injection H as <-; reflexivity. }
  rewrite Ho. clear H Ho.
  destruct openaiKey as [key|]; [|left; reflexivity].
  simpl. destruct (String.eqb_spec key "") as [->|Hne]; simpl.
  - right. reflexivity.
  - split; [reflexivity | exact Hne].
Qed.

(** X2. On a facade as constructed, [analyzeTransactionHistory] fails with
    "OpenAI not initialized. ..." before any call exactly when no completion
    key, or an empty one, was given to the constructor. With a key it asks
    the node for the transactions first: when that fails the failure is the
    outcome and the completion service is not called; otherwise the outcome
    is the answer of the one completion request, whose only message holds
    the transactions. *)
Theorem analyzeTransactionHistory_outcome (env : Env) (nodeUrl : string)
    (privateKey openaiKey : option string) (this : AptosAI) (address : string)
    (t : trace) :
  new_AptosAI env nodeUrl privateKey openaiKey = Ok this ->
  (analyzeTransactionHistory env this address t =
     (Err "OpenAI not initialized. Please provide API key.", t) <->
   openaiKey = None \/ openaiKey = Some "") /\
  (forall key : string,
     openaiKey = Some key -> key <> "" ->
     let t1 := GetAccountTransactions (VStr address) :: t in
     match node_getAccountTransactions env t (client this) (VStr address) with
     | Err e => analyzeTransactionHistory env this address t = (Err e, t1)
     | Ok transactions =>
         exists prompt : string,
           occurs_in (JSON_stringify_indent env transactions) prompt /\
           analyzeTransactionHistory env this address t =
             (chat_completion env t1 "gpt-4" [("user", prompt)],
              ChatCompletion "gpt-4" [("user", prompt)] :: t1)
     end).
Proof.
  intros Hnew. pose proof (new_AptosAI_openai _ _ _ _ _ Hnew) as Hkey.
  unfold analyzeTransactionHistory. split.
  - destruct (openai this) as [k|].
    + destruct Hkey as [-> Hne]. split.
      * unfold bind, call, chat, call.
        destruct (node_getAccountTransactions env t (client this) (VStr address));
          intros H; injection H as _ H; exfalso.
        -- apply (f_equal (@List.length Event)) in H. simpl in H. lia.
        -- exact (trace_grows _ _ H).
      * intros [H|H]; [discriminate | congruence].
    + split; [intros _; exact Hkey | reflexivity].
  - intros key -> Hne. destruct (openai this) as [k|].
    + unfold bind, call, chat, call.
      destruct (node_getAccountTransactions env t (client this) (VStr address))
        as [transactions|e]; [|reflexivity].
      eexists. split; [|reflexivity].
      apply occurs_in_app_l, occurs_in_app_l, occurs_in_app_l, occurs_in_refl.
    + destruct Hkey as [H|H]; congruence.
Qed.

Lemma analyzeTransactionHistory_outcome_witness :
  (analyzeTransactionHistory online_env bare_facade "0xa11ce" [] =
     (Err "OpenAI not initialized. Please provide API key.", []) <->
   @None string = None \/ None = Some "") /\
  exists prompt : string,
    occurs_in (JSON_stringify_indent online_env (VArr [])) prompt /\
    analyzeTransactionHistory online_env advising_facade "0xa11ce" [] =
      (Ok "BUY",
       [ChatCompletion "gpt-4" [("user", prompt)];
        GetAccountTransactions (VStr "0xa11ce")]).
Proof.
  split.
  - apply (analyzeTransactionHistory_outcome online_env
             "https://fullnode.mainnet.aptoslabs.com" None None bare_facade
             "0xa11ce" [] eq_refl).
  - apply (proj2 (analyzeTransactionHistory_outcome online_env
                    "https://fullnode.mainnet.aptoslabs.com" None (Some "sk-test")
                    advising_facade "0xa11ce" [] eq_refl) "sk-test" eq_refl).
    discriminate.
Defined.

(** ** The pool plugin *)

(** X3. The action "getPoolInfo" of [LiquidityPoolPlugin] fails without
    calling the node when the params are [undefined] or [null]. Otherwise it
    asks the node once, for the resources of [params.poolAddress]: a failure
    of the node is the outcome, and on an answer the outcome is the array of
    the resources whose type contains "LiquidityPool", in the order of the
    answer, and of no other resource. *)
Theorem LiquidityPoolPlugin_getPoolInfo (env : Env) (nodeUrl : string)
    (params : value) (t : trace) :
  let run := execute (LiquidityPoolPlugin env nodeUrl) "getPoolInfo" params t in
  (params = VUndefined \/ params = VNull ->
   exists e, run = (Err e, t)) /\
  (params <> VUndefined -> params <> VNull ->
   let poolAddress := prop params "poolAddress" in
   let t1 := GetAccountResources poolAddress :: t in
   match node_getAccountResources env t nodeUrl poolAddress with
   | Err e => run = (Err e, t1)
   | Ok resources =>
       exists pools : list Resource,
         run = (Ok (VArr (map Resource_value pools)), t1) /\
         Selected (fun r => occurs_in "LiquidityPool" (type r)) resources pools
   end).
Proof.
  intros run. subst run. cbn [execute LiquidityPoolPlugin].
  unfold LiquidityPoolPlugin_execute.
  change (String.eqb "getPoolInfo" "getPoolInfo") with true. cbv iota.
  split.
  - intros [->| ->]; eexists; reflexivity.
  - cbv zeta. intros Hu Hn.
    assert (get params "poolAddress" = Ok (prop params "poolAddress")) as Hget
      by (destruct params; try reflexivity; congruence).
    unfold bind at 1. unfold liftR. rewrite Hget.
    unfold getPoolInfo, bind, call, ret.
    destruct (node_getAccountResources env t nodeUrl (prop params "poolAddress"))
      as [resources|e]; [|reflexivity].
    eexists. split; [reflexivity|].
    apply Selected_filter. intros r. apply includes_spec.
Qed.

Lemma LiquidityPoolPlugin_getPoolInfo_witness :
  exists pools : list Resource,
    execute (LiquidityPoolPlugin pools_env "https://node") "getPoolInfo"
      (VObj [("poolAddress", VStr "0xp001")]) [] =
      (Ok (VArr (map Resource_value pools)), [GetAccountResources (VStr "0xp001")]) /\
    Selected (fun r => occurs_in "LiquidityPool" (type r)) two_resources pools.
Proof.
  apply (proj2 (LiquidityPoolPlugin_getPoolInfo pools_env "https://node"
                  (VObj [("poolAddress", VStr "0xp001")]) [])); discriminate.
Defined.

(** ** More on the best quote *)

Lemma outputAmounts_exist (quotes : list value) :
  Forall (fun q => is_ok (DeFiAdvisorAgent.outputAmount q) = true) quotes ->
  exists amounts : list Z,
    Forall2 (fun q z => DeFiAdvisorAgent.outputAmount q = Ok z) quotes amounts.
Proof.
  induction 1 as [|q quotes Hq _ [amounts IH]].
  - exists []. constructor.
  - destruct (DeFiAdvisorAgent.outputAmount q) as [z|e] eqn:E; [|discriminate].
    exists (z :: amounts). constructor; assumption.
Qed.

Lemma reduce_from_better_inv (rest : list value) :
  forall acc best : value,
    rest <> [] ->
    DeFiAdvisorAgent.reduce_from DeFiAdvisorAgent.better acc rest = Ok best ->
    Forall (fun q => is_ok (DeFiAdvisorAgent.outputAmount q) = true) (acc :: rest).
Proof.
  induction rest as [|x rest IH]; intros acc best Hne H; [congruence|].
  simpl in H. unfold DeFiAdvisorAgent.better at 1 in H.
  destruct (DeFiAdvisorAgent.outputAmount x) as [c|e] eqn:Ex; [|discriminate].
  destruct (DeFiAdvisorAgent.outputAmount acc) as [b|e] eqn:Ea; [|discriminate].
  simpl in H.
  constructor; [rewrite Ea; reflexivity|].
  constructor; [rewrite Ex; reflexivity|].
  destruct rest as [|y rest]; [constructor|].
  assert (Forall (fun q => is_ok (DeFiAdvisorAgent.outputAmount q) = true)
            ((if c >? b then x else acc) :: y :: rest)) as Hall
    by (apply (IH _ best); [discriminate | exact H]).
  inversion Hall; assumption.
Qed.

(** X4. Where the selection of the best quote is defined: on no quote it
    fails with the engine's error for an empty reduction; on one quote it
    returns that quote without reading it, even when it has no
    [outputAmount]; on two quotes or more it succeeds exactly when the
    [outputAmount] of every quote reads as a BigInt. *)
Theorem bestQuote_defined :
  DeFiAdvisorAgent.bestQuote [] = Err "Reduce of empty array with no initial value" /\
  (forall q : value, DeFiAdvisorAgent.bestQuote [q] = Ok q) /\
  (forall (q1 q2 : value) (rest : list value),
     is_ok (DeFiAdvisorAgent.bestQuote (q1 :: q2 :: rest)) = true <->
     Forall (fun q => is_ok (DeFiAdvisorAgent.outputAmount q) = true)
       (q1 :: q2 :: rest)).
Proof.
  split; [reflexivity|]. split; [reflexivity|].
  intros q1 q2 rest. unfold DeFiAdvisorAgent.bestQuote, DeFiAdvisorAgent.reduce. split.
  - destruct (DeFiAdvisorAgent.reduce_from DeFiAdvisorAgent.better q1 (q2 :: rest))
      as [best|e] eqn:E; [|discriminate].
    intros _. apply (reduce_from_better_inv _ _ best); [discriminate | exact E].
  - intros Hall. destruct (outputAmounts_exist _ Hall) as [amounts H].
    inversion H as [|? z1 ? restz H1 Hrest]; subst.
    destruct (reduce_from_better _ _ Hrest q1 z1 H1) as (best & _ & -> & _).
    reflexivity.
Qed.

Lemma bestQuote_defined_witness :
  is_ok (DeFiAdvisorAgent.bestQuote
           [quote "a" "900"; VObj [("estimatedOutput", VStr "950")]]) = true <->
  Forall (fun q => is_ok (DeFiAdvisorAgent.outputAmount q) = true)
    [quote "a" "900"; VObj [("estimatedOutput", VStr "950")]].
Proof.
  apply (proj2 (proj2 bestQuote_defined)).
Defined.

(** ** More on the balance *)

(** X5. A balance that [getAccountBalance] returns is never falsy: it is
    not [undefined], [null], [false], [0] or the empty string, the fallback
    "0" standing in for each of them. *)
Theorem getAccountBalance_truthy (env : Env) (this : AptosAI) (address : string)
    (coinType : option string) (t t' : trace) (balance : value) :
  getAccountBalance env this address coinType t = (Ok balance, t') ->
  truthy balance = true /\
  balance <> VUndefined /\ balance <> VNull /\ balance <> VBool false /\
  balance <> VNum 0 /\ balance <> VStr "".
Proof.
  unfold getAccountBalance, getAccountResources, bind, call, ret.
  destruct (node_getAccountResources env t (client this) (VStr address))
    as [resources|e]; [|discriminate].
  intros H. injection H as <- _.
  assert (forall x, truthy (or_else x (VStr "0")) = true) as Htruthy
    by (intros x; unfold or_else; destruct (truthy x) eqn:E; [exact E | reflexivity]).
  match goal with
  | |- truthy (or_else ?x _) = _ /\ _ => generalize (Htruthy x); generalize (or_else x (VStr "0"))
  end.
  intros v Hv. split; [exact Hv|].
  repeat split; intros ->; discriminate.
Qed.

Lemma getAccountBalance_truthy_witness :
  truthy (VStr "0") = true /\
  VStr "0" <> VUndefined /\ VStr "0" <> VNull /\ VStr "0" <> VBool false /\
  VStr "0" <> VNum 0 /\ VStr "0" <> VStr "".
Proof.
  apply (getAccountBalance_truthy online_env bare_facade "0xa11ce" None []
           [GetAccountResources (VStr "0xa11ce")] (VStr "0")).
  reflexivity.
Defined.

(** ** The execution of a trade *)

(** X9. [executeTrade] fails under its prefix, and calls nobody, when the
    facade has no account (the signer check of [submitTransaction]) and when
    the decision names no trade (the read of [trade.protocol]). *)
Theorem executeTrade_refused (env : Env) (this : TradingBot.t) (t : trace) :
  (account (TradingBot.aptosAI this) = None ->
   forall tr : TradeIntent,
     TradingBot.executeTrade env this (Some tr) t =
       (Err "Trade execution failed: Account not initialized. Please provide private key.",
        t)) /\
  TradingBot.executeTrade env this None t =
    (Err "Trade execution failed: Cannot read properties of undefined (reading 'protocol')",
     t).
Proof.
  split; [|reflexivity].
  intros Hnone tr.
  unfold TradingBot.executeTrade, rethrow, bind, liftR, submitTransaction.
  cbn [TradingBot.the_trade]. rewrite Hnone. reflexivity.
Qed.

Lemma executeTrade_refused_witness :
  TradingBot.executeTrade rich_env (bot_in rich_env bare_facade None)
    (Some trade_of_100) [] =
    (Err "Trade execution failed: Account not initialized. Please provide private key.",
     []).
Proof.
  apply (proj1 (executeTrade_refused rich_env (bot_in rich_env bare_facade None) [])).
  reflexivity.
Defined.



(** ** More on the trading cycle *)



(** X12. When the market data cannot be fetched, the cycle fails with that
    failure under the prefix "Trading cycle failed: ", the bot is left as it
    was, and the cycle has asked the three sources and nobody else: the
    model is not consulted. *)
Theorem monitorAndTrade_without_market_data (env : Env) (this : TradingBot.t)
    (t t1 : trace) (e : error) :
  TradingBot.too_soon env this t = false ->
  TradingBot.getMarketData env t = (Err e, t1) ->
  TradingBot.monitorAndTrade env this t =
    (Err ("Trading cycle failed: " +:+ e), this, t1) /\
  t1 = FetchLiquidity :: FetchVolumes :: FetchPrices :: t.
Proof.
  intros Hgate Hmd. split.
  - unfold TradingBot.monitorAndTrade. rewrite Hgate.
    unfold TradingBot.decide_and_trade. unfold bind at 1. rewrite Hmd. reflexivity.
  - pose proof (getMarketData_calls env t) as H. rewrite Hmd in H. exact H.
Qed.

Lemma monitorAndTrade_without_market_data_witness :
  TradingBot.monitorAndTrade closed_market_env
    (bot_in closed_market_env signing_facade None) [] =
    (Err "Trading cycle failed: Failed to fetch market data: timeout",
     bot_in closed_market_env signing_facade None,
     [FetchLiquidity; FetchVolumes; FetchPrices]) /\
  [FetchLiquidity; FetchVolumes; FetchPrices] =
    [FetchLiquidity; FetchVolumes; FetchPrices].
Proof.
  apply (monitorAndTrade_without_market_data closed_market_env
           (bot_in closed_market_env signing_facade None) []
           [FetchLiquidity; FetchVolumes; FetchPrices]
           "Failed to fetch market data: timeout").
  - reflexivity.
  - reflexivity.
Defined.

(** X13. A cycle whose decision is not to trade succeeds with the bot as it
    was, [lastTrade] included: after the market data and the completion it
    calls nobody, so that no balance is fetched, no quote asked and nothing
    submitted or notified. *)
Theorem monitorAndTrade_no_trade (env : Env) (this : TradingBot.t)
    (t t1 t2 : trace) (marketData : value) (content : string)
    (decision : TradingDecision) :
  TradingBot.too_soon env this t = false ->
  TradingBot.getMarketData env t = (Ok marketData, t1) ->
  chat env (TradingBot.analysisMessages env this marketData) t1 = (Ok content, t2) ->
  parseTradeDecision env content = Ok decision ->
  shouldTrade decision = false ->
  TradingBot.monitorAndTrade env this t = (Ok tt, this, t2) /\
  t2 = ([ChatCompletion "gpt-4" (TradingBot.analysisMessages env this marketData);
         FetchLiquidity; FetchVolumes; FetchPrices] ++ t)%list.
Proof.
  intros Hgate Hmd Hchat Hparse Hhold. split.
  - unfold TradingBot.monitorAndTrade. rewrite Hgate.
    unfold TradingBot.decide_and_trade. unfold bind at 1. rewrite Hmd.
    unfold bind at 1. unfold TradingBot.analyzeMarket, rethrow.
    unfold bind at 1. rewrite Hchat.
    unfold bind at 1. unfold liftR at 1. rewrite Hparse.
    unfold bind at 1. rewrite Hhold. unfold ret. rewrite Hhold. reflexivity.
  - pose proof (getMarketData_calls env t) as H1. rewrite Hmd in H1. simpl in H1.
    unfold chat, call in Hchat. injection Hchat as _ H2. subst. reflexivity.
Qed.

Lemma monitorAndTrade_no_trade_witness :
  fst (TradingBot.monitorAndTrade holding_env
         (bot_in holding_env signing_facade None) []) =
    (Ok tt, bot_in holding_env signing_facade None).
Proof.
  destruct (monitorAndTrade_no_trade holding_env
              (bot_in holding_env signing_facade None) [] _ _ _ "BUY" hold_decision
              eq_refl eq_refl eq_refl eq_refl eq_refl) as [H _].
  rewrite H. reflexivity.
Defined.

(** ** The risk assessment *)

(** X21. [getRiskAssessment] sends one request, [riskMessages], the same for
    every protocol and every agent (the protocol data are constants, and the
    list of past incidents prints as the empty text), and nothing else: a
    failure of the request is the outcome, under the prefix of the
    operation, and on an answer the details are the answer and the level is
    the one [determineRiskLevel] reads in it. *)
Theorem getRiskAssessment_outcome (env : Env) (this : DeFiAdvisorAgent.t)
    (protocol : string) (t : trace) :
  DeFiAdvisorAgent.getRiskAssessment env this protocol t =
    (match chat_completion env t "gpt-4" riskMessages with
     | Ok content =>
         Ok {| DeFiAdvisorAgent.riskLevel :=
                 DeFiAdvisorAgent.determineRiskLevel content;
               DeFiAdvisorAgent.details := content |}
     | Err e => Err ("Risk assessment failed: " +:+ e)
     end,
     ChatCompletion "gpt-4" riskMessages :: t).
Proof.
  unfold DeFiAdvisorAgent.getRiskAssessment, rethrow, bind,
    DeFiAdvisorAgent.getProtocolData, ret, chat, call.
  change (chat_completion env t "gpt-4" _)
    with (chat_completion env t "gpt-4" riskMessages).
  destruct (chat_completion env t "gpt-4" riskMessages); reflexivity.
Qed.


(** ** The validation of a trade *)

Lemma analyzeMarket_run (env : Env) (this : TradingBot.t) (marketData : value)
    (t : trace) :
  TradingBot.analyzeMarket env this marketData t =
    (match chat_completion env t "gpt-4"
             (TradingBot.analysisMessages env this marketData) with
     | Ok content =>
         match parseTradeDecision env content with
         | Ok decision =>
             if shouldTrade decision
             then Err ("Market analysis failed: " +:+
                       "this.aptosAI.getAddress is not a function")
             else Ok decision
         | Err e => Err ("Market analysis failed: " +:+ e)
         end
     | Err e => Err ("Market analysis failed: " +:+ e)
     end,
     ChatCompletion "gpt-4" (TradingBot.analysisMessages env this marketData) :: t).
Proof.
  unfold TradingBot.analyzeMarket, rethrow.
  unfold bind at 1. unfold chat, call.
  destruct (chat_completion env t "gpt-4"
              (TradingBot.analysisMessages env this marketData)) as [content|e];
    [|reflexivity].
  unfold bind at 1. unfold liftR at 1.
  destruct (parseTradeDecision env content) as [decision|e]; [|reflexivity].
  unfold bind at 1.
  destruct (shouldTrade decision); [rewrite validateTrade_throws|]; reflexivity.
Qed.

(** X8. [analyzeMarket] never returns a decision to trade: the decisions it
    returns are those that the model's answer parses to with [shouldTrade]
    false, and an answer that parses to a decision to trade makes it fail,
    after the one completion request, with "Market analysis failed:
    this.aptosAI.getAddress is not a function", whatever the trade. *)
Theorem analyzeMarket_never_approves (env : Env) (this : TradingBot.t)
    (marketData : value) (t : trace) :
  let messages := TradingBot.analysisMessages env this marketData in
  snd (TradingBot.analyzeMarket env this marketData t) =
    ChatCompletion "gpt-4" messages :: t /\
  (forall decision : TradingDecision,
     fst (TradingBot.analyzeMarket env this marketData t) = Ok decision <->
     (exists content : string,
        chat_completion env t "gpt-4" messages = Ok content /\
        parseTradeDecision env content = Ok decision) /\
     shouldTrade decision = false) /\
  (forall (content : string) (decision : TradingDecision),
     chat_completion env t "gpt-4" messages = Ok content ->
     parseTradeDecision env content = Ok decision ->
     shouldTrade decision = true ->
     fst (TradingBot.analyzeMarket env this marketData t) =
       Err "Market analysis failed: this.aptosAI.getAddress is not a function").
Proof.
  cbv zeta. rewrite analyzeMarket_run. cbn [fst snd].
  split; [reflexivity|].
  destruct (chat_completion env t "gpt-4"
              (TradingBot.analysisMessages env this marketData)) as [content|e].
  - destruct (parseTradeDecision env content) as [decision|e] eqn:Hparse.
    + destruct (shouldTrade decision) eqn:Hshould.
      * split.
        -- intros d. split; [discriminate|].
           intros [(c & Hc & Hd) Hno]. injection Hc as <-. congruence.
        -- intros c d Hc Hd _. reflexivity.
      * split.
        -- intros d. split.
           ++ intros H. injection H as <-. split; [|exact Hshould].
              exists content. split; [reflexivity | exact Hparse].
           ++ intros [(c & Hc & Hd) _]. injection Hc as <-. congruence.
        -- intros c d Hc Hd Hyes. injection Hc as <-. congruence.
    + split.
      * intros d. split; [discriminate|].
        intros [(c & Hc & Hd) _]. injection Hc as <-. congruence.
      * intros c d Hc Hd _. injection Hc as <-. congruence.
  - split.
    + intros d. split; [discriminate|]. intros [(c & Hc & _) _]. discriminate.
    + intros c d Hc. discriminate.
Qed.

Lemma analyzeMarket_never_approves_witness :
  fst (TradingBot.analyzeMarket trading_env (scenario_bot None) (VObj []) []) =
    Err "Market analysis failed: this.aptosAI.getAddress is not a function".
Proof.
  apply (proj2 (proj2 (analyzeMarket_never_approves trading_env (scenario_bot None)
                         (VObj []) [])) "BUY" buy_decision).
  - reflexivity.
  - reflexivity.
  - reflexivity.
Defined.

(** X15. As the code stands, no cycle trades: whatever the world, the bot
    and the history, [monitorAndTrade] leaves the bot as it was ([lastTrade]
    is never written), and every call it issues is one of the three market
    requests or a completion request: it never asks the node for anything,
    never builds, signs or submits a transaction, and never notifies a
    listener. *)
Theorem monitorAndTrade_never_trades (env : Env) (this : TradingBot.t) (t : trace) :
  exists (outcome : result unit) (issued : list Event),
    TradingBot.monitorAndTrade env this t = (outcome, this, (issued ++ t)%list) /\
    (issued = [] \/
     issued = [FetchLiquidity; FetchVolumes; FetchPrices] \/
     exists messages : list (string * string),
       issued = [ChatCompletion "gpt-4" messages;
                 FetchLiquidity; FetchVolumes; FetchPrices]).
Proof.
  unfold TradingBot.monitorAndTrade.
  destruct (TradingBot.too_soon env this t).
  { exists (Ok tt), []. split; [reflexivity | left; reflexivity]. }
  unfold TradingBot.decide_and_trade. unfold bind at 1.
  pose proof (getMarketData_calls env t) as Hcalls.
  destruct (TradingBot.getMarketData env t) as [[marketData|e] t1];
    simpl in Hcalls; subst t1.
  - unfold bind at 1. rewrite analyzeMarket_run.
    set (issued := [ChatCompletion "gpt-4"
                      (TradingBot.analysisMessages env this marketData);
                    FetchLiquidity; FetchVolumes; FetchPrices]).
    assert (Hissued : exists messages : list (string * string),
              issued = [ChatCompletion "gpt-4" messages;
                        FetchLiquidity; FetchVolumes; FetchPrices])
      by (eexists; reflexivity).
    destruct (chat_completion env _ "gpt-4" _) as [content|e];
      [destruct (parseTradeDecision env content) as [decision|e];
       [destruct (shouldTrade decision) eqn:Hshould|]|].
    + eexists. exists issued. split; [reflexivity | auto].
    + rewrite Hshould. eexists. exists issued. split; [reflexivity | auto].
    + eexists. exists issued. split; [reflexivity | auto].
    + eexists. exists issued. split; [reflexivity | auto].
  - exists (Err ("Trading cycle failed: " +:+ e)),
      [FetchLiquidity; FetchVolumes; FetchPrices].
    split; [reflexivity|]. right. left. reflexivity.
Qed.

(** ** The constructors *)

(** X22. The constructor of the facade fails exactly when the construction
    of the client fails, or the client is built and a private key that is
    given and not empty is rejected by the SDK; the error is the one of the
    step that failed. Credentials that are left out or empty never make it
    fail, and the completion key is not looked into. *)
Theorem new_AptosAI_failures (env : Env) (nodeUrl : string)
    (privateKey openaiKey : option string) (e : error) :
  new_AptosAI env nodeUrl privateKey openaiKey = Err e <->
  new_AptosClient env nodeUrl = Err e \/
  (exists client : AptosClient, new_AptosClient env nodeUrl = Ok client) /\
  (exists key : string,
     privateKey = Some key /\ key <> "" /\ new_AptosAccount env key = Err e).
Proof.
  unfold new_AptosAI.
  destruct (new_AptosClient env nodeUrl) as [c|e0]; simpl.
  - destruct privateKey as [key|]; simpl.
    + destruct (String.eqb_spec key "") as [->|Hne]; simpl.
      * split; [discriminate|].
        intros [H|[_ (k & Hk & Hnek & _)]]; [discriminate | congruence].
      * destruct (new_AptosAccount env key) as [acct|e'] eqn:Ea; simpl.
        -- split; [discriminate|].
           intros [H|[_ (k & Hk & _ & Hk')]]; [discriminate|].
           injection Hk as <-. congruence.
        -- split.
           ++ intros H. injection H as ->. right.
              split; [exists c; reflexivity | exists key; auto].
           ++ intros [H|[_ (k & Hk & _ & Hk')]]; [discriminate|].
              injection Hk as <-. congruence.
    + split; [discriminate|].
      intros [H|[_ (k & Hk & _)]]; discriminate.
  - split.
    + intros H. injection H as ->. left. reflexivity.
    + intros [H|[(c & Hc) _]]; [injection H as ->; reflexivity | discriminate].
Qed.

Lemma new_AptosAI_failures_witness :
  new_AptosAI strict_env "" None None = Err "Node URL cannot be empty." /\
  new_AptosAI strict_env "https://fullnode.mainnet.aptoslabs.com" (Some "ab12")
    (Some "sk-test") = Err "bad seed size".
Proof.
  split.
  - apply (proj2 (new_AptosAI_failures strict_env "" None None
                    "Node URL cannot be empty.")).
    left. reflexivity.
  - apply (proj2 (new_AptosAI_failures strict_env
                    "https://fullnode.mainnet.aptoslabs.com" (Some "ab12")
                    (Some "sk-test") "bad seed size")).
    right. split.
    + exists "https://fullnode.mainnet.aptoslabs.com". reflexivity.
    + exists "ab12". split; [reflexivity|]. split; [discriminate | reflexivity].
Defined.

(** X16. Neither agent can be constructed: each constructor builds its
    facade and then, in [initializePlugins], calls [getClient] on it, which
    the facade does not have. The constructor of the bot fails with the
    failure of the facade's constructor when there is one, and otherwise
    with "this.aptosAI.getClient is not a function"; so does the constructor
    of the advisor, whose facade gets no credentials. No plugin is ever
    registered by a constructor. *)
Theorem agent_constructors_throw (env : Env) (nodeUrl privateKey openaiKey
    strategyName : string) (config : option Z) :
  TradingBot.new env nodeUrl privateKey openaiKey strategyName config =
    Err (match new_AptosAI env nodeUrl (Some privateKey) None with
         | Err e => e
         | Ok _ => "this.aptosAI.getClient is not a function"
         end) /\
  DeFiAdvisorAgent.new env nodeUrl openaiKey =
    Err (match new_AptosClient env nodeUrl with
         | Err e => e
         | Ok _ => "this.aptosAI.getClient is not a function"
         end).
Proof.
  split.
  - unfold TradingBot.new.
    destruct (new_AptosAI env nodeUrl (Some privateKey) None); reflexivity.
  - unfold DeFiAdvisorAgent.new, new_AptosAI.
    destruct (new_AptosClient env nodeUrl); reflexivity.
Qed.

(** ** More on the swap suggestion *)

(** X18. With the pool plugin of the repository under "liquidityPool", the
    name under which [initializePlugins] registers it, every swap suggestion
    fails, without any call: the quotes of the plugin carry
    [estimatedOutput] and no [outputAmount], and the selection of the best
    quote converts [undefined] to a BigInt. No advice is asked for. *)
Theorem suggestOptimalSwap_with_pool_plugin (env : Env) (this : DeFiAdvisorAgent.t)
    (poolClient : AptosClient) (fromToken toToken amount : string) (t : trace) :
  plugins (DeFiAdvisorAgent.aptosAI this) !! "liquidityPool" =
    Some (LiquidityPoolPlugin env poolClient) ->
  DeFiAdvisorAgent.suggestOptimalSwap env this fromToken toToken amount t =
    (Err "Swap analysis failed: Cannot convert undefined to a BigInt", t).
Proof.
  intros Hp.
  unfold DeFiAdvisorAgent.suggestOptimalSwap, rethrow, bind, Promise_all,
    DeFiAdvisorAgent.dexes, executePluginAction.
  rewrite Hp. reflexivity.
Qed.

Lemma suggestOptimalSwap_with_pool_plugin_witness :
  DeFiAdvisorAgent.suggestOptimalSwap pools_env shipped_advisor "APT" "USDC" "7" [] =
    (Err "Swap analysis failed: Cannot convert undefined to a BigInt", []).
Proof.
  apply (suggestOptimalSwap_with_pool_plugin pools_env shipped_advisor
           "https://fullnode.mainnet.aptoslabs.com" "APT" "USDC" "7" []).
  reflexivity.
Defined.

(** ** The portfolio analysis *)

(** X19. Every portfolio analysis fails, whatever the agent, the address
    and the world: the request for the resources of the address is sent,
    and then the call of [getAccountTransactions] on the facade, which the
    facade does not have, throws. The outcome is that error under the prefix
    of the operation; the answer to the request is never looked at, and the
    model is not consulted. *)
Theorem analyzePortfolio_throws (env : Env) (this : DeFiAdvisorAgent.t)
    (address : string) (t : trace) :
  DeFiAdvisorAgent.analyzePortfolio env this address t =
    (Err ("Portfolio analysis failed: " +:+
          "this.aptosAI.getAccountTransactions is not a function"),
     GetAccountResources (VStr address) :: t).
Proof.
  unfold DeFiAdvisorAgent.analyzePortfolio, rethrow.
  unfold bind at 1. unfold start, getAccountResources, call.
  destruct (node_getAccountResources env t _ (VStr address)); reflexivity.
Qed.
